(** * clipster-worker: the capture session of [src/index.ts]

    A shallow embedding of the Cloudflare worker of this repository: the
    request router (the default export), the [Browser] durable object with
    its two handlers [fetch] and [alarm], and [generateId] of
    [src/utils.ts].

    The handlers are asynchronous JavaScript methods that mutate the fields
    of the durable object and call into the platform (puppeteer, the R2
    bucket, the alarm storage).  They are embedded in a small monad that
    threads the object's state, may raise, and records every platform call
    as an event.  What the platform answers to a call is not decided by the
    program: it is read from an environment record, so every theorem that
    quantifies over environments covers every behaviour of the platform.

    In line with the single-actor discipline of durable objects, one
    handler invocation is one atomic step of the session. *)

From Stdlib Require Import ZArith Lia List String Ascii.
From stdpp Require Import base option list gmap strings pretty.
Import ListNotations.

Local Open Scope Z_scope.
Local Open Scope string_scope.

(** ** JavaScript values used by the handlers *)

(** [Boolean(v)], equivalently [!!v], for a value of type [string | null]:
    only [null] and the empty string are falsy. *)
Definition Boolean (v : option string) : bool :=
  match v with
  | None => false
  | Some EmptyString => false
  | Some (String _ _) => true
  end.

Definition is_some {A} (o : option A) : bool :=
  match o with
  | Some _ => true
  | None => false
  end.

(** [!v] *)
Definition falsy (v : option string) : bool := negb (Boolean v).

(** The string a template literal splices in for a [string | null]. *)
Definition str (v : option string) : string :=
  match v with
  | Some s => s
  | None => "null"
  end.

(** ** Requests and responses *)

(** A [Headers] object: names are kept in lower case, [get] joins the
    values of one name with a comma and a space and answers [null] when
    the name is absent. *)
Definition Headers := list (string * string).

Definition headers_get (h : Headers) (name : string) : option string :=
  match List.filter (fun p => String.eqb (fst p) name) h with
  | [] => None
  | vs => Some (String.concat ", " (List.map snd vs))
  end.

(** A [FormData] object; [get] answers the first value of the field. *)
Definition FormData := list (string * string).

Definition formData_get (f : FormData) (name : string) : option string :=
  match List.filter (fun p => String.eqb (fst p) name) f with
  | [] => None
  | p :: _ => Some (snd p)
  end.

Record Request := {
  req_url : string;
  req_method : string;
  req_headers : Headers;
  (* the body read as a form; [None] when it is not one *)
  req_form : option FormData
}.

(** The payloads of this program are flat object literals whose fields
    hold a boolean, a string or an array of strings. *)
Inductive JsonValue :=
| JBool (b : bool)
| JStr (s : string)
| JArr (items : list string).

Definition Json := list (string * JsonValue).

Inductive Body :=
| BodyJson (j : Json)
| BodyText (s : string)
| BodyNone.

Record Response := {
  status : Z;
  body : Body;
  location : option string
}.

(** [Response.json(data, { status })] *)
Definition Response_json (data : Json) (st : Z) : Response :=
  {| status := st; body := BodyJson data; location := None |}.

(** [new Response(text, { status })] *)
Definition Response_text (text : string) (st : Z) : Response :=
  {| status := st; body := BodyText text; location := None |}.

(** [Response.redirect(url, status)] *)
Definition Response_redirect (url : string) (st : Z) : Response :=
  {| status := st; body := BodyNone; location := Some url |}.

(** ** [btoa]: base64 of a binary string *)

Definition base64_alphabet : string :=
  "ABCDEFGHIJKLMNOPQRSTUVWXYZabcdefghijklmnopqrstuvwxyz0123456789+/".

Definition base64_digit (n : N) : ascii :=
  match String.get (N.to_nat n) base64_alphabet with
  | Some c => c
  | None => "="%char
  end.

Fixpoint base64_encode (l : list N) : string :=
  match l with
  | [] => ""
  | [a] =>
      String (base64_digit (N.shiftr a 2))
     (String (base64_digit (N.shiftl (N.land a 3) 4)) "==")
  | [a; b] =>
      String (base64_digit (N.shiftr a 2))
     (String (base64_digit (N.lor (N.shiftl (N.land a 3) 4) (N.shiftr b 4)))
     (String (base64_digit (N.shiftl (N.land b 15) 2)) "="))
  | a :: b :: c :: rest =>
      String (base64_digit (N.shiftr a 2))
     (String (base64_digit (N.lor (N.shiftl (N.land a 3) 4) (N.shiftr b 4)))
     (String (base64_digit (N.lor (N.shiftl (N.land b 15) 2) (N.shiftr c 6)))
     (String (base64_digit (N.land c 63))
     (base64_encode rest))))
  end.

Definition char_codes (s : string) : list N :=
  List.map N_of_ascii (list_ascii_of_string s).

(** Every character of a Rocq string is a byte, so [btoa] never raises
    its [InvalidCharacterError] here. *)
Definition btoa (s : string) : string := base64_encode (char_codes s).

(** ** [src/utils.ts] *)

(** The alphabet handed to [customAlphabet]. *)
Definition id_alphabet : string :=
  "1234567890abcdefghijklmnopqrstuvwxyzABCDEFGHIJKLMNOPQRSTUVWXYZ".

Definition alphabet_at (alphabet : string) (i : nat) : string :=
  match String.get (i mod String.length alphabet) alphabet with
  | Some c => String c ""
  | None => ""
  end.

(** [customAlphabet(alphabet, size)] of the nanoid package (not part of
    this repository): the generator it returns draws [size] symbols of
    [alphabet], each at a random index below the alphabet's length.  The
    random draws are the argument [pick]: [pick i] decides the [i]-th
    symbol. *)
Fixpoint customAlphabet_from (alphabet : string) (pick : nat -> nat)
    (i size : nat) : string :=
  match size with
  | O => ""
  | S size' =>
      alphabet_at alphabet (pick i) +:+
      customAlphabet_from alphabet pick (S i) size'
  end.

Definition customAlphabet (alphabet : string) (size : nat)
    (pick : nat -> nat) : string :=
  customAlphabet_from alphabet pick 0 size.

(** [generateId(suffix?)] *)
Definition generateId (suffix : option string) (pick : nat -> nat) : string :=
  let nanoid := customAlphabet id_alphabet 6 in
  "O" +:+ nanoid pick +:+ (if Boolean suffix then str suffix else "").

(** ** The platform, as one handler invocation sees it *)

Definition Bytes := list N.

Inductive Error :=
| TypeError (msg : string)
| LaunchError (msg : string)
| PageError (op : string)
| BucketError
| CloseError.

(** [`${e}`] *)
Definition error_message (e : Error) : string :=
  match e with
  | TypeError msg => "TypeError: " +:+ msg
  | LaunchError msg => "Error: " +:+ msg
  | PageError op => "Error: " +:+ op
  | BucketError => "Error: put"
  | CloseError => "Error: close"
  end.

(** What the platform answers during one invocation of a handler.  Each
    handler makes each of these calls at most once. *)
Record Env := {
  (* [new URL(s).href], [None] when the constructor raises *)
  URL_href : string -> option string;
  (* [Date.now()] *)
  Date_now : Z;
  (* the random draws of nanoid *)
  random_pick : nat -> nat;
  (* [puppeteer.launch]: the browser started, [None] when it rejects *)
  launch_result : option nat;
  newPage_ok : bool;
  setViewport_ok : bool;
  goto_ok : bool;
  (* [page.screenshot]: the image, [None] when it rejects *)
  screenshot_result : option Bytes;
  page_close_ok : bool;
  browser_close_ok : bool;
  (* [env.BUCKET.put] *)
  put_ok : bool;
  (* Clerk: [requestState.toAuth()?.userId] and [requestState.signInUrl] *)
  auth_userId : option string;
  signInUrl : string;
  (* [env.BUCKET_ORIGIN] of wrangler.toml *)
  BUCKET_ORIGIN : string;
  (* whether the platform runs the alarm handler again after it raised *)
  alarm_retry : bool
}.

(** A [puppeteer.Browser] object: its connection and its open pages. *)
Record PBrowser := {
  browser_id : nat;
  connected : bool;
  open_pages : list nat;
  pages_created : nat
}.

(** The fields of the [Browser] durable object that the handlers change,
    the alarm storage and the bucket.

    The alarm storage of a durable object holds one alarm, and [setAlarm]
    replaces it.  Here the pending alarms are a list and [setAlarm] adds to
    it, so that a handler arming an alarm while one is pending would leave
    two entries: that this never happens is then a property of the
    handlers. *)
Record State := {
  browser : option PBrowser;
  keptAliveInSeconds : Z;
  alarms : list Z;
  bucket : gmap string Bytes
}.

Inductive Event :=
| EvLog (msg : string)
| EvIsConnected (b : nat) (answer : bool)
| EvLaunch (started : option nat)
| EvNewPage (b : nat) (opened : option nat)
| EvSetViewport (page : nat) (width height : Z) (ok : bool)
| EvGoto (page : nat) (href : string) (ok : bool)
| EvScreenshot (page : nat) (path : string) (fullPage : bool) (ok : bool)
| EvPut (key : string) (ok : bool)
| EvPageClose (page : nat) (ok : bool)
| EvBrowserClose (b : nat) (ok : bool)
| EvGetAlarm (answer : option Z)
| EvSetAlarm (scheduledTime : Z).

(** ** The monad of the handlers *)

Inductive Result (A : Type) :=
| Returns (a : A)
| Throws (e : Error).
Arguments Returns {A} a.
Arguments Throws {A} e.

Record Run (A : Type) := {
  outcome : Result A;
  final : State;
  events : list Event
}.
Arguments outcome {A} r.
Arguments final {A} r.
Arguments events {A} r.

Definition M (A : Type) : Type := Env -> State -> Run A.

Definition ret {A} (a : A) : M A :=
  fun _ s => {| outcome := Returns a; final := s; events := [] |}.

Definition throw {A} (e : Error) : M A :=
  fun _ s => {| outcome := Throws e; final := s; events := [] |}.

Definition bind {A B} (m : M A) (k : A -> M B) : M B :=
  fun env s =>
    match m env s with
    | {| outcome := Returns a; final := s1; events := evs1 |} =>
        match k a env s1 with
        | {| outcome := o; final := s2; events := evs2 |} =>
            {| outcome := o; final := s2; events := evs1 ++ evs2 |}
        end
    | {| outcome := Throws e; final := s1; events := evs1 |} =>
        {| outcome := Throws e; final := s1; events := evs1 |}
    end.

(** [try { m } catch (e) { handler(e) }]: the effects of [m] up to the
    point where it raised stay. *)
Definition try_catch {A} (m : M A) (handler : Error -> M A) : M A :=
  fun env s =>
    match m env s with
    | {| outcome := Returns a; final := s1; events := evs1 |} =>
        {| outcome := Returns a; final := s1; events := evs1 |}
    | {| outcome := Throws e; final := s1; events := evs1 |} =>
        match handler e env s1 with
        | {| outcome := o; final := s2; events := evs2 |} =>
            {| outcome := o; final := s2; events := evs1 ++ evs2 |}
        end
    end.

#[global] Instance M_ret : MRet M := @ret.
#[global] Instance M_bind : MBind M := fun A B k m => bind m k.

Definition ask : M Env :=
  fun env s => {| outcome := Returns env; final := s; events := [] |}.

Definition get_state : M State :=
  fun _ s => {| outcome := Returns s; final := s; events := [] |}.

Definition put_state (s' : State) : M unit :=
  fun _ _ => {| outcome := Returns tt; final := s'; events := [] |}.

Definition emit (e : Event) : M unit :=
  fun _ s => {| outcome := Returns tt; final := s; events := [e] |}.

(** *** Fields of the durable object *)

Definition set_browser (b : option PBrowser) (s : State) : State :=
  {| browser := b; keptAliveInSeconds := keptAliveInSeconds s;
     alarms := alarms s; bucket := bucket s |}.

Definition set_keptAliveInSeconds (k : Z) (s : State) : State :=
  {| browser := browser s; keptAliveInSeconds := k;
     alarms := alarms s; bucket := bucket s |}.

Definition set_alarms (a : list Z) (s : State) : State :=
  {| browser := browser s; keptAliveInSeconds := keptAliveInSeconds s;
     alarms := a; bucket := bucket s |}.

Definition set_bucket (m : gmap string Bytes) (s : State) : State :=
  {| browser := browser s; keptAliveInSeconds := keptAliveInSeconds s;
     alarms := alarms s; bucket := m |}.

Definition this_browser : M (option PBrowser) :=
  s ← get_state; mret (browser s).

Definition this_browser_assign (b : PBrowser) : M unit :=
  s ← get_state; put_state (set_browser (Some b) s).

Definition this_keptAliveInSeconds : M Z :=
  s ← get_state; mret (keptAliveInSeconds s).

Definition this_keptAliveInSeconds_assign (k : Z) : M unit :=
  s ← get_state; put_state (set_keptAliveInSeconds k s).

(** *** Platform calls *)

Definition console_log (msg : string) : M unit := emit (EvLog msg).

(** [new URL(input)], answering its [href] *)
Definition new_URL (input : string) : M string :=
  env ← ask;
  match URL_href env input with
  | Some href => mret href
  | None => throw (TypeError "Invalid URL")
  end.

(** [generateId()] with the random draws of this invocation *)
Definition generateId_call : M string :=
  env ← ask; mret (generateId None (random_pick env)).

(** [puppeteer.launch(env.MYBROWSER)] *)
Definition puppeteer_launch : M PBrowser :=
  env ← ask;
  emit (EvLaunch (launch_result env));;
  match launch_result env with
  | Some id =>
      mret {| browser_id := id; connected := true;
              open_pages := []; pages_created := 0 |}
  | None => throw (LaunchError "launch")
  end.

(** [b.isConnected()] *)
Definition isConnected (b : PBrowser) : M bool :=
  emit (EvIsConnected (browser_id b) (connected b));;
  mret (connected b).

(** [this.browser.newPage()]: the page it opens is recorded in the
    browser object the field refers to. *)
Definition newPage (b : PBrowser) : M nat :=
  env ← ask;
  if newPage_ok env then
    let page := pages_created b in
    emit (EvNewPage (browser_id b) (Some page));;
    s ← get_state;
    put_state (set_browser
      (Some {| browser_id := browser_id b; connected := connected b;
               open_pages := page :: open_pages b;
               pages_created := S (pages_created b) |}) s);;
    mret page
  else
    emit (EvNewPage (browser_id b) None);;
    throw (PageError "newPage").

Definition page_setViewport (page : nat) (width height : Z) : M unit :=
  env ← ask;
  emit (EvSetViewport page width height (setViewport_ok env));;
  if setViewport_ok env then mret tt else throw (PageError "setViewport").

Definition page_goto (page : nat) (href : string) : M unit :=
  env ← ask;
  emit (EvGoto page href (goto_ok env));;
  if goto_ok env then mret tt else throw (PageError "goto").

Definition page_screenshot (page : nat) (path : string) (fullPage : bool)
    : M Bytes :=
  env ← ask;
  emit (EvScreenshot page path fullPage (is_some (screenshot_result env)));;
  match screenshot_result env with
  | Some sc => mret sc
  | None => throw (PageError "screenshot")
  end.

(** [page.close()]: on success the page leaves the browser's open pages. *)
Definition page_close (page : nat) : M unit :=
  env ← ask;
  emit (EvPageClose page (page_close_ok env));;
  if page_close_ok env then
    s ← get_state;
    match browser s with
    | Some b =>
        put_state (set_browser
          (Some {| browser_id := browser_id b; connected := connected b;
                   open_pages := List.filter (fun p => negb (p =? page)%nat)
                                   (open_pages b);
                   pages_created := pages_created b |}) s)
    | None => mret tt
    end
  else throw (PageError "close").

(** [b.close()]: on success the browser is disconnected and its pages
    are gone. *)
Definition browser_close (b : PBrowser) : M unit :=
  env ← ask;
  emit (EvBrowserClose (browser_id b) (browser_close_ok env));;
  if browser_close_ok env then
    s ← get_state;
    put_state (set_browser
      (Some {| browser_id := browser_id b; connected := false;
               open_pages := []; pages_created := pages_created b |}) s)
  else throw CloseError.

(** [env.BUCKET.put(key, value)] *)
Definition BUCKET_put (key : string) (value : Bytes) : M unit :=
  env ← ask;
  emit (EvPut key (put_ok env));;
  if put_ok env then
    s ← get_state; put_state (set_bucket (<[key := value]> (bucket s)) s)
  else throw BucketError.

(** [this.storage.getAlarm()] *)
Definition storage_getAlarm : M (option Z) :=
  s ← get_state;
  emit (EvGetAlarm (head (alarms s)));;
  mret (head (alarms s)).

(** [this.storage.setAlarm(scheduledTime)] *)
Definition storage_setAlarm (scheduledTime : Z) : M unit :=
  emit (EvSetAlarm scheduledTime);;
  s ← get_state; put_state (set_alarms (scheduledTime :: alarms s) s).

Definition Date_now_call : M Z := env ← ask; mret (Date_now env).

(** ** [src/index.ts]: the [Browser] durable object *)

Definition KEEP_BROWSER_ALIVE_IN_SECONDS : Z := 60.

(** The state the constructor leaves: [keptAliveInSeconds] is zero and
    [browser] is not assigned. *)
Definition constructed : State :=
  {| browser := None; keptAliveInSeconds := 0; alarms := []; bucket := ∅ |}.

Definition failure (error : string) : Json :=
  [("success", JBool false); ("error", JStr error)].

Module Browser.

(** [async fetch(request: Request)].  A [return] from inside a [try] or
    [catch] block is an optional response of that block: [Some] leaves
    the handler, [None] falls through to the next statement. *)
Definition fetch (request : Request) : M Response :=
  let urlHeader := headers_get (req_headers request) "url" in
  let userId := headers_get (req_headers request) "user-id" in
  let fullPage := headers_get (req_headers request) "full-page" in
  if falsy urlHeader then
    mret (Response_json
            (failure "Invalid capture options: Missing URL") 400)
  else
  url_href ← new_URL (str urlHeader);
  if falsy userId then
    mret (Response_json
            (failure "Invalid capture options: Missing user ID") 400)
  else
  let folder := "captures/user-" +:+ btoa (str userId) in
  (* if there's a browser session open, re-use it *)
  b ← this_browser;
  reuse ← match b with
          | None => mret false
          | Some b => isConnected b
          end;
  launching ←
    (if negb reuse then
       console_log "Browser DO: Starting new instance";;
       try_catch
         (started ← puppeteer_launch;
          this_browser_assign started;;
          mret None)
         (fun e =>
            console_log
              ("Browser DO: Could not start browser instance. Error: "
               +:+ error_message e);;
            mret (Some (Response_json
                          (failure "Failed to start browser") 500)))
     else mret None);
  match launching with
  | Some response => mret response
  | None =>
  (* Ensure browser is not null before proceeding *)
  b ← this_browser;
  match b with
  | None =>
      console_log "Browser DO: Browser is null after attempted launch";;
      mret (Response_json (failure "Browser initialization failed") 500)
  | Some b =>
  (* Reset keptAlive after each call to the DO *)
  this_keptAliveInSeconds_assign 0;;
  let width := 1920 in
  let height := 1080 in
  captureKey ← generateId_call;
  paging ←
    try_catch
      (page ← newPage b;
       page_setViewport page width height;;
       page_goto page url_href;;
       let fileName := captureKey +:+ ".jpg" in
       sc ← page_screenshot page fileName (Boolean fullPage);
       let bucketKey := folder +:+ "/" +:+ fileName in
       BUCKET_put bucketKey sc;;
       page_close page;;
       mret None)
      (fun error =>
         mret (Some (Response_json
                       (failure "Error during page operations") 500)));
  match paging with
  | Some response => mret response
  | None =>
  (* Reset keptAlive after performing tasks to the DO. *)
  this_keptAliveInSeconds_assign 0;;
  (* set the first alarm to keep DO alive *)
  currentAlarm ← storage_getAlarm;
  match currentAlarm with
  | None =>
      console_log "Browser DO: setting alarm";;
      let TEN_SECONDS := 10 * 1000 in
      now ← Date_now_call;
      storage_setAlarm (now + TEN_SECONDS)
  | Some _ => mret tt
  end;;
  mret (Response_json [("success", JBool true); ("key", JStr captureKey)]
          200)
  end end end.

(** [async alarm()] *)
Definition alarm : M unit :=
  k ← this_keptAliveInSeconds;
  this_keptAliveInSeconds_assign (k + 10);;
  k ← this_keptAliveInSeconds;
  (* Extend browser DO life *)
  if (k <? KEEP_BROWSER_ALIVE_IN_SECONDS)%Z then
    console_log ("Browser DO: has been kept alive for " +:+ pretty k
                 +:+ " seconds. Extending lifespan.");;
    now ← Date_now_call;
    storage_setAlarm (now + 10 * 1000)
  else
    console_log ("Browser DO: exceeded life of "
                 +:+ pretty KEEP_BROWSER_ALIVE_IN_SECONDS +:+ "s.");;
    b ← this_browser;
    match b with
    | Some b =>
        console_log "Closing browser.";;
        browser_close b
    | None => mret tt
    end.

End Browser.

(** ** The second [Browser] class

    The repository holds a second text of the worker, with the same
    [alarm] and a [fetch] that differs: the URL defaults to
    [https://example.com], the viewports are a list (of one entry), the
    storage key is derived from the URL and the viewport, the screenshot
    is never a full-page one, and the responses are plain text. *)

Module Browser2.

Definition console_error (msg : string) : M unit := emit (EvLog msg).

(** The body of the [for] loop, once per viewport; it answers the keys
    pushed onto [captureKey]. *)
Fixpoint capture_viewports (page : nat) (url_href folder : string)
    (viewports : list (Z * Z)) : M (list string) :=
  match viewports with
  | [] => mret []
  | (width_i, height_i) :: rest =>
      page_setViewport page width_i height_i;;
      page_goto page url_href;;
      let fileName :=
        url_href +:+ "_" +:+ pretty width_i +:+ "x" +:+ pretty height_i in
      let key := folder +:+ "/" +:+ fileName +:+ ".jpg" in
      sc ← page_screenshot page (fileName +:+ ".jpg") false;
      BUCKET_put key sc;;
      keys ← capture_viewports page url_href folder rest;
      mret (key :: keys)
  end.

(** [async fetch(request: Request)] *)
Definition fetch (request : Request) : M Response :=
  let urlHeader := headers_get (req_headers request) "url" in
  url_href ← new_URL (match urlHeader with
                      | Some u => u
                      | None => "https://example.com"
                      end);
  let userId := headers_get (req_headers request) "user-id" in
  if falsy userId then
    mret (Response_text "User ID not found" 400)
  else
  (* screen resolutions to test out *)
  let width := [1920] in
  let height := [1080] in
  let userFolder := "user-" +:+ btoa (str userId) in
  let folder := "captures/" +:+ userFolder in
  (* if there's a browser session open, re-use it *)
  b ← this_browser;
  reuse ← match b with
          | None => mret false
          | Some b => isConnected b
          end;
  launching ←
    (if negb reuse then
       console_log "Browser DO: Starting new instance";;
       try_catch
         (started ← puppeteer_launch;
          this_browser_assign started;;
          mret None)
         (fun e =>
            console_log
              ("Browser DO: Could not start browser instance. Error: "
               +:+ error_message e);;
            mret (Some (Response_text "Failed to start browser" 500)))
     else mret None);
  match launching with
  | Some response => mret response
  | None =>
  (* Ensure browser is not null before proceeding *)
  b ← this_browser;
  match b with
  | None =>
      console_log "Browser DO: Browser is null after attempted launch";;
      mret (Response_text "Browser initialization failed" 500)
  | Some b =>
  (* Reset keptAlive after each call to the DO *)
  this_keptAliveInSeconds_assign 0;;
  paging ←
    try_catch
      (page ← newPage b;
       (* take screenshots of each screen size *)
       captureKey ← capture_viewports page url_href folder
                      (combine width height);
       (* Close tab when there is no more work to be done on the page *)
       page_close page;;
       mret (inl captureKey))
      (fun error =>
         console_error ("Error during page operations: "
                        +:+ error_message error);;
         mret (inr (Response_text "Error during page operations" 500)));
  match paging with
  | inr response => mret response
  | inl captureKey =>
  (* Reset keptAlive after performing tasks to the DO. *)
  this_keptAliveInSeconds_assign 0;;
  (* set the first alarm to keep DO alive *)
  currentAlarm ← storage_getAlarm;
  match currentAlarm with
  | None =>
      console_log "Browser DO: setting alarm";;
      let TEN_SECONDS := 10 * 1000 in
      now ← Date_now_call;
      storage_setAlarm (now + TEN_SECONDS)
  | Some _ => mret tt
  end;;
  (* the body is the text [JSON.stringify] makes of this object *)
  mret (Response_json
          [("sucess", JBool true); ("captureKey", JArr captureKey)] 200)
  end end end.

(** [async alarm()]: the same text as in the first class. *)
Definition alarm : M unit := Browser.alarm.

End Browser2.

(** ** [src/index.ts]: the request router (the default export) *)

(** [await request.formData()] *)
Definition request_formData (request : Request) : M FormData :=
  match req_form request with
  | Some f => mret f
  | None => throw (TypeError "Unrecognized Content-Type header value")
  end.

(** [async fetch(request: Request, env: Env)]: the stub call
    [obj.fetch(doRequest)] runs the handler of the one durable object
    named ['browser']. *)
Definition worker_fetch (request : Request) : M Response :=
  url ← new_URL (req_url request);
  env ← ask;
  let authState_userId := auth_userId env in
  if falsy authState_userId then
    mret (Response_redirect (signInUrl env) 307)
  else
  if String.eqb (req_method request) "GET" then
    let origin := BUCKET_ORIGIN env in
    mret (Response_text
            ("Hello from the browser Durable Object! Bucket origin: "
             +:+ origin) 200)
  else if String.eqb (req_method request) "POST" then
    formData ← request_formData request;
    let url := formData_get formData "url" in
    if falsy url || falsy authState_userId then
      mret (Response_text "Invalid capture options" 400)
    else
    let doRequest :=
      {| req_url := "clipster://capture"; req_method := "GET";
         req_headers := [("user-id", str authState_userId);
                         ("url", str url)];
         req_form := None |} in
    resp ← Browser.fetch doRequest;
    mret resp
  else
    mret (Response_text "Invalid method" 405).

(** The router of the second text: it hands every request to the
    durable object, without authentication. *)
Definition worker_fetch2 (request : Request) : M Response :=
  resp ← Browser2.fetch request;
  mret resp.

(** ** The session as a transition system *)

(** What can happen to one durable object: a request reaches [fetch], the
    pending alarm fires, or the connection to the browser drops. *)
Inductive Action :=
| Fetch (request : Request) (env : Env)
| Alarm (env : Env)
| Disconnect.

(** The browser behind the field loses its connection. *)
Definition disconnect (s : State) : State :=
  match browser s with
  | Some b =>
      set_browser
        (Some {| browser_id := browser_id b; connected := false;
                 open_pages := []; pages_created := pages_created b |}) s
  | None => s
  end.

(** The platform delivers the pending alarm: the alarm is consumed and
    [alarm()] runs.  Nothing happens when no alarm is pending.  When the
    handler raises, the platform may arm a retry. *)
Definition fire_alarm (env : Env) (s : State) : State * list Event :=
  match alarms s with
  | [] => (s, [])
  | _ :: pending =>
      let r := Browser.alarm env (set_alarms pending s) in
      match outcome r with
      | Returns _ => (final r, events r)
      | Throws _ =>
          if alarm_retry env then
            (set_alarms (Date_now env + 2000 :: alarms (final r)) (final r),
             events r)
          else (final r, events r)
      end
  end.

Definition step (a : Action) (s : State) : State * list Event :=
  match a with
  | Fetch request env =>
      let r := Browser.fetch request env s in (final r, events r)
  | Alarm env => fire_alarm env s
  | Disconnect => (disconnect s, [])
  end.

(** Runs the actions in order; the second component is the history of
    platform calls. *)
Fixpoint exec (actions : list Action) (s : State) (history : list Event)
    : State * list Event :=
  match actions with
  | [] => (s, history)
  | a :: rest =>
      let '(s', evs) := step a s in
      exec rest s' (history ++ evs)
  end.

Definition run (actions : list Action) : State * list Event :=
  exec actions constructed [].

Definition reachable (s : State) : Prop :=
  exists actions, fst (run actions) = s.

(** *** Observations on a history *)

Definition is_launch_ok (e : Event) : bool :=
  match e with EvLaunch (Some _) => true | _ => false end.

Definition is_launch (e : Event) : bool :=
  match e with EvLaunch _ => true | _ => false end.

Definition is_browser_close (e : Event) : bool :=
  match e with EvBrowserClose _ _ => true | _ => false end.

Definition is_browser_close_ok (e : Event) : bool :=
  match e with EvBrowserClose _ true => true | _ => false end.

Definition is_setAlarm (e : Event) : bool :=
  match e with EvSetAlarm _ => true | _ => false end.

Definition is_page_open (page : nat) (e : Event) : bool :=
  match e with EvNewPage _ (Some p) => (p =? page)%nat | _ => false end.

Definition is_page_close (page : nat) (e : Event) : bool :=
  match e with EvPageClose p _ => (p =? page)%nat | _ => false end.

Definition is_log (e : Event) : bool :=
  match e with EvLog _ => true | _ => false end.

Definition is_newPage (e : Event) : bool :=
  match e with EvNewPage _ _ => true | _ => false end.

Definition is_goto (e : Event) : bool :=
  match e with EvGoto _ _ _ => true | _ => false end.

Definition is_screenshot (e : Event) : bool :=
  match e with EvScreenshot _ _ _ _ => true | _ => false end.

Definition is_put (e : Event) : bool :=
  match e with EvPut _ _ => true | _ => false end.

Definition is_any_page_close (e : Event) : bool :=
  match e with EvPageClose _ _ => true | _ => false end.

Definition count (p : Event -> bool) (evs : list Event) : nat :=
  length (List.filter p evs).

(** ** Sample platforms and requests *)

(** A URL constructor for the examples.  It keeps the first state of the
    URL Standard's parser: without a base URL, an input that does not
    begin with a scheme (a letter, then letters, digits, [+], [-] or [.])
    and a colon is a failure.  The examples pass it inputs that are
    already in serialised form, for which [href] is the input. *)
Definition is_alpha (c : ascii) : bool :=
  let n := N_of_ascii c in
  ((65 <=? n) && (n <=? 90) || (97 <=? n) && (n <=? 122))%N.

Definition is_scheme_char (c : ascii) : bool :=
  let n := N_of_ascii c in
  (is_alpha c || (48 <=? n) && (n <=? 57)
   || (n =? 43) || (n =? 45) || (n =? 46))%N.

Fixpoint scheme_rest (s : string) : bool :=
  match s with
  | EmptyString => false
  | String c s' =>
      if Ascii.eqb c ":" then true
      else if is_scheme_char c then scheme_rest s' else false
  end.

Definition has_scheme (s : string) : bool :=
  match s with
  | EmptyString => false
  | String c s' => is_alpha c && scheme_rest s'
  end.

Definition sample_URL_href (s : string) : option string :=
  if has_scheme s then Some s else None.

Definition sample_image : Bytes := [255; 216; 255; 217]%N.

(** A platform on which every call succeeds. *)
Definition env_ok : Env :=
  {| URL_href := sample_URL_href; Date_now := 1000000;
     random_pick := fun i => (i * 7)%nat;
     launch_result := Some 1%nat;
     newPage_ok := true; setViewport_ok := true; goto_ok := true;
     screenshot_result := Some sample_image;
     page_close_ok := true; browser_close_ok := true; put_ok := true;
     auth_userId := Some "user_42";
     signInUrl := "https://clipster.dev/sign-in";
     BUCKET_ORIGIN := "https://r2.clipster.dev";
     alarm_retry := false |}.

(** [env_ok] with the navigation failing. *)
Definition env_goto_fails : Env :=
  {| URL_href := sample_URL_href; Date_now := 1000000;
     random_pick := fun i => (i * 7)%nat;
     launch_result := Some 1%nat;
     newPage_ok := true; setViewport_ok := true; goto_ok := false;
     screenshot_result := Some sample_image;
     page_close_ok := true; browser_close_ok := true; put_ok := true;
     auth_userId := Some "user_42";
     signInUrl := "https://clipster.dev/sign-in";
     BUCKET_ORIGIN := "https://r2.clipster.dev";
     alarm_retry := false |}.

(** [env_ok] with the browser refusing to close. *)
Definition env_close_fails : Env :=
  {| URL_href := sample_URL_href; Date_now := 1000000;
     random_pick := fun i => (i * 7)%nat;
     launch_result := Some 1%nat;
     newPage_ok := true; setViewport_ok := true; goto_ok := true;
     screenshot_result := Some sample_image;
     page_close_ok := true; browser_close_ok := false; put_ok := true;
     auth_userId := Some "user_42";
     signInUrl := "https://clipster.dev/sign-in";
     BUCKET_ORIGIN := "https://r2.clipster.dev";
     alarm_retry := false |}.

(** [env_ok] with the launch rejected. *)
Definition env_launch_fails : Env :=
  {| URL_href := sample_URL_href; Date_now := 1000000;
     random_pick := fun i => (i * 7)%nat;
     launch_result := None;
     newPage_ok := true; setViewport_ok := true; goto_ok := true;
     screenshot_result := Some sample_image;
     page_close_ok := true; browser_close_ok := true; put_ok := true;
     auth_userId := Some "user_42";
     signInUrl := "https://clipster.dev/sign-in";
     BUCKET_ORIGIN := "https://r2.clipster.dev";
     alarm_retry := false |}.

(** The request the router forwards to the durable object. *)
Definition capture_request (url userId : string) : Request :=
  {| req_url := "clipster://capture"; req_method := "GET";
     req_headers := [("user-id", userId); ("url", url)];
     req_form := None |}.

Definition capture_request_with (url userId fullPage : string) : Request :=
  {| req_url := "clipster://capture"; req_method := "GET";
     req_headers := [("user-id", userId); ("url", url);
                     ("full-page", fullPage)];
     req_form := None |}.


(** A form post of [url] to the worker. *)
Definition post_request (url : string) : Request :=
  {| req_url := "https://worker.clipster.dev/"; req_method := "POST";
     req_headers := []; req_form := Some [("url", url)] |}.

(** ** Notions used in the statements *)

(** A digit or a letter. *)
Definition is_alphanumeric (c : ascii) : bool :=
  let n := N_of_ascii c in
  ((48 <=? n) && (n <=? 57) || (65 <=? n) && (n <=? 90)
   || (97 <=? n) && (n <=? 122))%N.

(** The storage key of a capture, as line 128 of [index.ts] builds it. *)
Definition storage_key (userId captureId : string) : string :=
  "captures/user-" +:+ btoa userId +:+ "/" +:+ captureId +:+ ".jpg".

(** Some page operation of this invocation is refused by the platform. *)
Definition page_operation_fails (env : Env) : Prop :=
  newPage_ok env = false \/ setViewport_ok env = false
  \/ goto_ok env = false \/ screenshot_result env = None
  \/ put_ok env = false \/ page_close_ok env = false.

(** The browser object after a successful [close()]. *)
Definition closed (b : PBrowser) : PBrowser :=
  {| browser_id := browser_id b; connected := false;
     open_pages := []; pages_created := pages_created b |}.

(** The session after a capture and five idle ticks: fifty seconds of idle
    time, the browser connected, one alarm pending. *)
Definition fifty_seconds_idle : State :=
  fst (run (Fetch (capture_request "https://example.com/" "user_42") env_ok
            :: repeat (Alarm env_ok) 5)).

(** The number of ticks after which a counter that stands at [k] is at or
    above the threshold. *)
Definition ticks_to_threshold (k : Z) : nat :=
  Z.to_nat (Z.max 1 ((KEEP_BROWSER_ALIVE_IN_SECONDS - k + 9) / 10)).


(** How one platform call changes whether a launched browser is still
    there: a granted launch makes one, a granted [close()] ends it. *)
Definition lifecycle (alive : bool) (e : Event) : bool :=
  match e with
  | EvLaunch (Some _) => true
  | EvBrowserClose _ true => false
  | _ => alive
  end.

(** Whether, by a history, a launch has succeeded and no teardown has
    completed since. *)
Definition launched_and_not_closed (h : list Event) : bool :=
  fold_left lifecycle h false.

(** What holds of the field and the history in every reachable state. *)
Definition field_invariant (s : State) (h : list Event) : Prop :=
  (browser s <> None <-> (0 < count is_launch_ok h)%nat)
  /\ (forall b, browser s = Some b -> connected b = true ->
                launched_and_not_closed h = true).

(** A run that answers at once: it returns [resp], makes no platform call
    and leaves the state as it was. *)
Definition answers_at_once (r : Run Response) (s : State) (resp : Response)
    : Prop :=
  r = {| outcome := Returns resp; final := s; events := [] |}.

(** The platform does not run the alarm handler again after it raised:
    for an alarm delivery, either [close()] is granted or no retry is
    armed. *)
Definition no_alarm_retry (a : Action) : Prop :=
  match a with
  | Alarm env => browser_close_ok env = true \/ alarm_retry env = false
  | _ => True
  end.

(** The idle counter is a multiple of ten between zero and the threshold,
    and below the threshold while an alarm is pending. *)
Definition counter_in_range (s : State) : Prop :=
  0 <= keptAliveInSeconds s <= KEEP_BROWSER_ALIVE_IN_SECONDS
  /\ keptAliveInSeconds s mod 10 = 0
  /\ (alarms s <> [] -> keptAliveInSeconds s < KEEP_BROWSER_ALIVE_IN_SECONDS)
  /\ (length (alarms s) <= 1)%nat.

(** The storage key of the second class: the folder of the user, then the
    URL and the one viewport. *)
Definition storage_key2 (userId href : string) : string :=
  "captures/user-" +:+ btoa userId +:+ "/" +:+ href +:+ "_1920x1080.jpg".

(** The URL the second class captures: the header, or its default. *)
Definition url_or_default (request : Request) : string :=
  match headers_get (req_headers request) "url" with
  | Some u => u
  | None => "https://example.com"
  end.

(** * Properties *)

(** ** The encoders on sample inputs *)

Example btoa_user_42 : btoa "user_42" = "dXNlcl80Mg==".
Proof. reflexivity. Qed.

Example generateId_sample :
  generateId None (fun i => i * 7)%nat = "O18elsz".
Proof. reflexivity. Qed.

(** ** Symbolic execution of a handler

    A handler is straight-line code with branches: unfolding the monad
    leaves nested case distinctions on the request and on the platform's
    answers, each of which is split innermost first. *)

Ltac unfold_handlers :=
  cbv beta iota zeta delta
    [Browser.fetch Browser.alarm worker_fetch request_formData
     Browser2.fetch Browser2.alarm Browser2.capture_viewports
     Browser2.console_error combine
     mbind mret M_bind M_ret bind ret throw try_catch
     ask get_state put_state emit this_browser this_browser_assign
     this_keptAliveInSeconds this_keptAliveInSeconds_assign console_log
     new_URL generateId_call puppeteer_launch isConnected newPage
     page_setViewport page_goto page_screenshot page_close browser_close
     BUCKET_put storage_getAlarm storage_setAlarm Date_now_call falsy negb
     orb].

Ltac simpl_state :=
  cbn [browser alarms keptAliveInSeconds bucket set_browser set_alarms
       set_keptAliveInSeconds set_bucket head outcome final events app
       browser_id connected open_pages pages_created].

Ltac split_match :=
  match goal with
  | |- context [match ?x with _ => _ end] =>
      lazymatch x with
      | context [match _ with _ => _ end] => fail
      | _ => destruct x eqn:?
      end
  end.

Ltac run_handler := unfold_handlers; repeat (simpl_state; split_match); simpl_state.

(** Names for the three headers [fetch] reads, so that the unfolded
    handler mentions variables only. *)
Ltac name_headers request :=
  generalize (headers_get (req_headers request) "full-page");
  generalize (headers_get (req_headers request) "url");
  generalize (headers_get (req_headers request) "user-id");
  intros userId urlHeader fullPage.

(** ** Truthiness *)

Lemma Boolean_true_iff (v : option string) :
  Boolean v = true <-> exists s, v = Some s /\ s <> "".
Proof.
  destruct v as [[|c s]|]; simpl; split.
  - discriminate.
  - intros (s & [= <-] & Hs). now contradiction Hs.
  - intros _. exists (String c s). split; [reflexivity | discriminate].
  - reflexivity.
  - discriminate.
  - intros (s & Hs & _). discriminate Hs.
Qed.


Lemma falsy_false_iff (v : option string) :
  falsy v = false <-> exists s, v = Some s /\ s <> "".
Proof.
  rewrite <- Boolean_true_iff. unfold falsy.
  destruct (Boolean v); simpl; split; congruence.
Qed.

(** ** The capture id *)

Lemma alphabet_at_id_alphabet (i : nat) :
  exists c, alphabet_at id_alphabet i = String c ""
            /\ is_alphanumeric c = true.
Proof.
  unfold alphabet_at.
  change (String.length id_alphabet) with 62%nat.
  assert (Hlt : (i mod 62 < 62)%nat) by (apply Nat.mod_upper_bound; lia).
  revert Hlt. generalize (i mod 62)%nat. intros n Hn.
  do 62 (destruct n as [|n]; [vm_compute; eauto |]).
  lia.
Qed.

Lemma customAlphabet_from_id_alphabet (pick : nat -> nat) (size i : nat) :
  let token := customAlphabet_from id_alphabet pick i size in
  String.length token = size
  /\ Forall (fun c => is_alphanumeric c = true) (list_ascii_of_string token).
Proof.
  revert i. induction size as [|size IH]; intros i; simpl.
  - split; [reflexivity | constructor].
  - destruct (alphabet_at_id_alphabet (pick i)) as (c & -> & Hc).
    destruct (IH (S i)) as [Hlen Hall].
    change (String c "" +:+ ?t) with (String c t). simpl. split.
    + now rewrite Hlen.
    + constructor; assumption.
Qed.

(** [generateId()] is the marker [O] followed by six alphanumeric
    characters. *)
Lemma generateId_shape (pick : nat -> nat) :
  exists token,
    generateId None pick = "O" +:+ token
    /\ String.length token = 6%nat
    /\ Forall (fun c => is_alphanumeric c = true) (list_ascii_of_string token).
Proof.
  exists (customAlphabet id_alphabet 6 pick).
  destruct (customAlphabet_from_id_alphabet pick 6 0) as [Hlen Hall].
  unfold generateId. simpl Boolean. cbv iota.
  repeat split; try assumption.
  f_equal. f_equal.
  generalize (customAlphabet id_alphabet 6 pick). intros t.
  induction t as [|c t IHt]; [reflexivity |].
  change (String c t +:+ "") with (String c (t +:+ "")). now rewrite IHt.
Qed.

Lemma append_assoc (a b c : string) : (a +:+ b) +:+ c = a +:+ (b +:+ c).
Proof.
  induction a as [|x a IH]; [reflexivity |].
  change (String x (a +:+ b) +:+ c = String x (a +:+ (b +:+ c))).
  change (String x ((a +:+ b) +:+ c) = String x (a +:+ (b +:+ c))).
  now rewrite IH.
Qed.

Lemma storage_key_eq (userId captureId : string) :
  ("captures/user-" +:+ btoa userId) +:+ "/" +:+ captureId +:+ ".jpg"
  = storage_key userId captureId.
Proof. unfold storage_key. now rewrite append_assoc. Qed.

(** ** [fetch]: the full-page flag *)

(** C10. Whenever [fetch] takes the screenshot, its [fullPage] option is
    the truthiness of the [full-page] header as a string: enabled exactly
    when the header is present with a non-empty value, whatever that value
    says. *)
Theorem fullPage_is_header_truthiness
    (request : Request) (env : Env) (s : State)
    (page : nat) (path : string) (fp ok : bool) :
  In (EvScreenshot page path fp ok) (events (Browser.fetch request env s)) ->
  fp = true <->
  exists v, headers_get (req_headers request) "full-page" = Some v /\ v <> "".
Proof.
  rewrite <- Boolean_true_iff.
  assert (Hfp : In (EvScreenshot page path fp ok)
                  (events (Browser.fetch request env s)) ->
                fp = Boolean (headers_get (req_headers request) "full-page")).
  { unfold_handlers. name_headers request.
    repeat (simpl_state; split_match); simpl_state; simpl In;
      intros H; repeat (destruct H as [H | H]; try discriminate H);
      try contradiction;
      injection H; intros; subst; reflexivity. }
  intros H. now rewrite (Hfp H).
Qed.

(** The header value ["false"] turns the full-page capture on. *)
Lemma fullPage_is_header_truthiness_witness :
  true = true <->
  exists v,
    headers_get
      (req_headers
         (capture_request_with "https://example.com/" "user_42" "false"))
      "full-page" = Some v /\ v <> "".
Proof.
  apply (fullPage_is_header_truthiness
           (capture_request_with "https://example.com/" "user_42" "false")
           env_ok constructed 0%nat "O18elsz.jpg" true true).
  vm_compute. tauto.
Defined.

Example fullPage_absent_is_viewport :
  In (EvScreenshot 0 "O18elsz.jpg" false true)
     (events (Browser.fetch (capture_request "https://example.com/" "user_42")
                env_ok constructed)).
Proof. vm_compute. tauto. Qed.

Example fullPage_zero_is_full :
  In (EvScreenshot 0 "O18elsz.jpg" true true)
     (events (Browser.fetch
                (capture_request_with "https://example.com/" "user_42" "0")
                env_ok constructed)).
Proof. vm_compute. tauto. Qed.

Example fullPage_empty_is_viewport :
  In (EvScreenshot 0 "O18elsz.jpg" false true)
     (events (Browser.fetch
                (capture_request_with "https://example.com/" "user_42" "")
                env_ok constructed)).
Proof. vm_compute. tauto. Qed.

(** ** [fetch]: validation *)

(** A [url] header that the URL constructor refuses ends the call with the
    constructor's exception. *)
Lemma fetch_invalid_url_throws
    (request : Request) (env : Env) (s : State) (u : string) :
  headers_get (req_headers request) "url" = Some u -> u <> "" ->
  URL_href env u = None ->
  outcome (Browser.fetch request env s) = Throws (TypeError "Invalid URL").
Proof.
  intros Hu Hne Hparse. unfold_handlers. rewrite Hu.
  destruct u as [|c u]; [now contradiction Hne |].
  cbv beta iota delta [Boolean str]. rewrite Hparse. reflexivity.
Qed.

(** C2, as stated, fails: with the header [url: not-a-url] the call does
    not return a 400 response, it raises. *)
Lemma malformed_url_is_not_a_400 :
  let request := capture_request "not-a-url" "user_42" in
  let r := Browser.fetch request env_ok constructed in
  headers_get (req_headers request) "url" = Some "not-a-url"
  /\ URL_href env_ok "not-a-url" = None
  /\ outcome r = Throws (TypeError "Invalid URL")
  /\ ~ (exists resp, outcome r = Returns resp /\ status resp = 400).
Proof.
  vm_compute. repeat split; try reflexivity.
  intros (resp & H & _). discriminate H.
Qed.

(** C2 (amended). A request whose [url] header is absent or empty, or
    whose [url] header parses while its [user-id] header is absent or
    empty, is answered with the 400 validation failure.  For these
    requests, and for those whose [url] header does not parse, [fetch]
    makes no platform call at all (so no browser is launched or touched)
    and leaves the state of the session as it was. *)
Theorem validation_before_any_browser_use
    (request : Request) (env : Env) (s : State) :
  let urlHeader := headers_get (req_headers request) "url" in
  let userId := headers_get (req_headers request) "user-id" in
  let r := Browser.fetch request env s in
  (urlHeader = None \/ urlHeader = Some "" ->
   outcome r = Returns (Response_json
                          (failure "Invalid capture options: Missing URL")
                          400)
   /\ final r = s /\ events r = [])
  /\ (forall u, urlHeader = Some u -> u <> "" -> URL_href env u <> None ->
      userId = None \/ userId = Some "" ->
      outcome r = Returns (Response_json
                             (failure
                                "Invalid capture options: Missing user ID")
                             400)
      /\ final r = s /\ events r = [])
  /\ (forall u, urlHeader = Some u -> u <> "" -> URL_href env u = None ->
      final r = s /\ events r = []).
Proof.
  cbv zeta. unfold_handlers. name_headers request.
  assert (Hempty : forall u : string, u <> "" -> exists c u', u = String c u').
  { intros [|c u'] Hu; [now contradiction Hu | eauto]. }
  split; [| split].
  - intros [-> | ->]; repeat split; reflexivity.
  - intros u -> Hu Hparse Hid.
    destruct (Hempty u Hu) as (c & u' & ->).
    cbv beta iota delta [Boolean str].
    destruct (URL_href env (String c u')); [| now contradiction Hparse].
    destruct Hid as [-> | ->]; repeat split; reflexivity.
  - intros u -> Hu Hparse.
    destruct (Hempty u Hu) as (c & u' & ->).
    cbv beta iota delta [Boolean str]. rewrite Hparse.
    split; reflexivity.
Qed.

(** An empty [url] header on the freshly constructed object. *)
Lemma validation_before_any_browser_use_witness :
  let r := Browser.fetch (capture_request "" "user_42") env_ok constructed in
  outcome r = Returns (Response_json
                         (failure "Invalid capture options: Missing URL")
                         400)
  /\ final r = constructed /\ events r = [].
Proof.
  apply (proj1 (validation_before_any_browser_use
                  (capture_request "" "user_42") env_ok constructed)).
  right. reflexivity.
Defined.

Example missing_user_id_is_400 :
  outcome (Browser.fetch (capture_request "https://example.com/" "")
             env_ok constructed)
  = Returns (Response_json
               (failure "Invalid capture options: Missing user ID") 400).
Proof. reflexivity. Qed.

(** ** [fetch]: what a success carries *)

(** C3, as stated, fails: the success payload carries the capture id, not
    the key under which the image was stored.  Nothing is stored under the
    string the payload carries. *)
Lemma success_key_is_not_the_storage_key :
  let r := Browser.fetch (capture_request "https://example.com/" "user_42")
             env_ok constructed in
  outcome r = Returns (Response_json
                         [("success", JBool true); ("key", JStr "O18elsz")]
                         200)
  /\ bucket (final r) !! "O18elsz" = None
  /\ bucket (final r) !! "captures/user-dXNlcl80Mg==/O18elsz.jpg"
     = Some sample_image.
Proof. vm_compute. repeat split. Qed.

(** C3 (amended). A successful capture answers [{ success: true, key }]
    where [key] is the capture id: the marker [O] followed by six
    alphanumeric characters.  The image was written to the bucket under
    [captures/user-{base64(userId)}/{captureId}.jpg]. *)
Theorem success_carries_capture_id
    (request : Request) (env : Env) (s : State) (resp : Response) :
  let r := Browser.fetch request env s in
  outcome r = Returns resp -> status resp = 200 ->
  exists userId token sc,
    headers_get (req_headers request) "user-id" = Some userId
    /\ String.length token = 6%nat
    /\ Forall (fun c => is_alphanumeric c = true) (list_ascii_of_string token)
    /\ resp = Response_json
                [("success", JBool true); ("key", JStr ("O" +:+ token))] 200
    /\ screenshot_result env = Some sc
    /\ In (EvPut (storage_key userId ("O" +:+ token)) true) (events r)
    /\ bucket (final r) !! storage_key userId ("O" +:+ token) = Some sc.
Proof.
  cbv zeta.
  destruct (generateId_shape (random_pick env)) as (token & Hgen & Hlen & Hall).
  unfold_handlers. name_headers request.
  repeat (simpl_state; split_match); simpl_state;
    intros Hout Hst; try discriminate Hout;
    injection Hout as <-; try discriminate Hst.
  all: rewrite Hgen.
  all: repeat match goal with
       | H : Boolean ?v = true |- _ =>
           apply Boolean_true_iff in H; destruct H as (? & -> & _)
       end.
  all: eexists; exists token; eexists; split; [reflexivity |].
  all: cbn [str]; rewrite storage_key_eq.
  all: repeat split; try eassumption; try reflexivity.
  all: try (simpl In; tauto).
  all: apply lookup_insert_eq.
Qed.

(** The scenario of the specification: [https://example.com] for
    [user_42] on a cold session. *)
Lemma success_carries_capture_id_witness :
  let r := Browser.fetch (capture_request "https://example.com/" "user_42")
             env_ok constructed in
  exists userId token sc,
    headers_get
      (req_headers (capture_request "https://example.com/" "user_42"))
      "user-id" = Some userId
    /\ String.length token = 6%nat
    /\ Forall (fun c => is_alphanumeric c = true) (list_ascii_of_string token)
    /\ Response_json [("success", JBool true); ("key", JStr "O18elsz")] 200
       = Response_json
           [("success", JBool true); ("key", JStr ("O" +:+ token))] 200
    /\ screenshot_result env_ok = Some sc
    /\ In (EvPut (storage_key userId ("O" +:+ token)) true) (events r)
    /\ bucket (final r) !! storage_key userId ("O" +:+ token) = Some sc.
Proof.
  apply (success_carries_capture_id
           (capture_request "https://example.com/" "user_42") env_ok
           constructed
           (Response_json [("success", JBool true); ("key", JStr "O18elsz")]
              200)).
  - vm_compute. reflexivity.
  - reflexivity.
Defined.

(** ** [fetch] and the router: the shape of the responses *)

(** C9, as stated, fails: the 405 of a disallowed method is the router's
    plain-text response, not the structured payload. *)
Lemma method_not_allowed_is_plain_text :
  let request :=
    {| req_url := "https://worker.clipster.dev/"; req_method := "DELETE";
       req_headers := []; req_form := None |} in
  let r := worker_fetch request env_ok constructed in
  outcome r = Returns (Response_text "Invalid method" 405)
  /\ ~ (exists resp error,
          outcome r = Returns resp
          /\ body resp = BodyJson (failure error)).
Proof.
  vm_compute. split; [reflexivity |].
  intros (resp & error & H & Hbody). injection H as <-. discriminate Hbody.
Qed.

(** C9 (amended). Every response of [Browser.fetch] is structured: status
    200 with [{ success: true, key }], or [{ success: false, error }] with
    status 400 when the URL or the user id is missing and status 500 when
    the launch or a page operation failed.  The 405 for a disallowed
    method comes from the router, as the plain text [Invalid method]. *)
Theorem caller_facing_responses
    (request : Request) (env : Env) (s : State) (resp : Response) :
  (outcome (Browser.fetch request env s) = Returns resp ->
   (status resp = 200
    /\ exists key,
         body resp = BodyJson [("success", JBool true); ("key", JStr key)])
   \/ (status resp = 400
       /\ (falsy (headers_get (req_headers request) "url") = true
           \/ falsy (headers_get (req_headers request) "user-id") = true)
       /\ exists error, body resp = BodyJson (failure error))
   \/ (status resp = 500
       /\ (launch_result env = None \/ page_operation_fails env)
       /\ exists error, body resp = BodyJson (failure error)))
  /\ (outcome (worker_fetch request env s) = Returns resp ->
      status resp = 405 ->
      resp = Response_text "Invalid method" 405
      /\ req_method request <> "GET" /\ req_method request <> "POST").
Proof.
  split.
  - unfold page_operation_fails, falsy. unfold_handlers.
    name_headers request.
    repeat (simpl_state; split_match); simpl_state;
      intros Hout; try discriminate Hout; injection Hout as <-;
      cbn [status body Response_json negb].
    all: try congruence.
    all: first
      [ left; split; [reflexivity | eexists; reflexivity]
      | right; left; split; [reflexivity |];
        split; [tauto | eexists; reflexivity]
      | right; right; split; [reflexivity |];
        split; [tauto | eexists; reflexivity] ].
  - unfold_handlers.
    generalize (req_form request). intros form.
    repeat (simpl_state; split_match); simpl_state;
      intros Hout Hst; try discriminate Hout; injection Hout as <-;
      try discriminate Hst.
    repeat split; try reflexivity.
    + intros Heq. rewrite Heq in *. discriminate.
    + intros Heq. rewrite Heq in *. discriminate.
Qed.

(** A disallowed method at the router, and a capture on a cold session. *)
Lemma caller_facing_responses_witness :
  ((status (Response_json
              [("success", JBool true); ("key", JStr "O18elsz")] 200) = 200
    /\ exists key,
         body (Response_json
                 [("success", JBool true); ("key", JStr "O18elsz")] 200)
         = BodyJson [("success", JBool true); ("key", JStr key)])
   \/ (status (Response_json
                 [("success", JBool true); ("key", JStr "O18elsz")] 200) = 400
       /\ (falsy (headers_get
                    (req_headers
                       (capture_request "https://example.com/" "user_42"))
                    "url") = true
           \/ falsy (headers_get
                       (req_headers
                          (capture_request "https://example.com/" "user_42"))
                       "user-id") = true)
       /\ exists error,
            body (Response_json
                    [("success", JBool true); ("key", JStr "O18elsz")] 200)
            = BodyJson (failure error))
   \/ (status (Response_json
                 [("success", JBool true); ("key", JStr "O18elsz")] 200) = 500
       /\ (launch_result env_ok = None \/ page_operation_fails env_ok)
       /\ exists error,
            body (Response_json
                    [("success", JBool true); ("key", JStr "O18elsz")] 200)
            = BodyJson (failure error)))
  /\ (Response_text "Invalid method" 405 = Response_text "Invalid method" 405
      /\ "DELETE" <> "GET" /\ "DELETE" <> "POST").
Proof.
  split.
  - apply (proj1 (caller_facing_responses
                    (capture_request "https://example.com/" "user_42")
                    env_ok constructed
                    (Response_json
                       [("success", JBool true); ("key", JStr "O18elsz")]
                       200))).
    vm_compute. reflexivity.
  - apply (proj2 (caller_facing_responses
                    {| req_url := "https://worker.clipster.dev/";
                       req_method := "DELETE";
                       req_headers := []; req_form := None |}
                    env_ok constructed
                    (Response_text "Invalid method" 405))).
    + vm_compute. reflexivity.
    + reflexivity.
Defined.

Example launch_failure_is_500 :
  outcome (Browser.fetch (capture_request "https://example.com/" "user_42")
             env_launch_fails constructed)
  = Returns (Response_json (failure "Failed to start browser") 500).
Proof. vm_compute. reflexivity. Qed.

Example router_missing_url_is_plain_400 :
  outcome (worker_fetch
             {| req_url := "https://worker.clipster.dev/";
                req_method := "POST"; req_headers := [];
                req_form := Some [] |}
             env_ok constructed)
  = Returns (Response_text "Invalid capture options" 400).
Proof. vm_compute. reflexivity. Qed.

(** ** [fetch]: the page context *)

(** How often [fetch] calls [close] on the page it opened: once when every
    operation before it went through, never otherwise. *)
Lemma page_close_calls
    (request : Request) (env : Env) (s : State) (b page : nat) :
  let r := Browser.fetch request env s in
  In (EvNewPage b (Some page)) (events r) ->
  count (is_page_close page) (events r)
  = if setViewport_ok env && goto_ok env
       && is_some (screenshot_result env) && put_ok env
    then 1%nat else 0%nat.
Proof.
  cbv zeta. unfold_handlers. name_headers request.
  repeat (simpl_state; split_match); simpl_state; simpl In;
    intros H; repeat (destruct H as [H | H]; try discriminate H);
    try contradiction;
    injection H as <- <-.
  all: cbv [count is_page_close List.filter]; rewrite ?Nat.eqb_refl.
  all: try reflexivity.
  all: match goal with
       | H : _ && _ = _ |- _ => cbn in H; discriminate H
       end.
Qed.

(** C1. The page is not closed on a failure path: with the navigation
    failing, [fetch] answers the 500 of a page-operation failure without a
    single [close] on the page it opened, and the page stays among the
    open pages of the browser. *)
Theorem page_left_open_when_navigation_fails :
  let r := Browser.fetch (capture_request "https://example.com/" "user_42")
             env_goto_fails constructed in
  outcome r = Returns (Response_json
                         (failure "Error during page operations") 500)
  /\ In (EvNewPage 1 (Some 0%nat)) (events r)
  /\ count (is_page_close 0) (events r) = 0%nat
  /\ option_map open_pages (browser (final r)) = Some [0%nat].
Proof. vm_compute. repeat split. tauto. Qed.

(** On the success path the page is closed, once. *)
Lemma page_closed_once_on_success :
  let r := Browser.fetch (capture_request "https://example.com/" "user_42")
             env_ok constructed in
  count (is_page_open 0) (events r) = 1%nat
  /\ count (is_page_close 0) (events r) = 1%nat
  /\ option_map open_pages (browser (final r)) = Some [].
Proof. vm_compute. repeat split. Qed.

(** ** [alarm]: one tick *)

(** Below the threshold a tick adds ten seconds and arms the next tick. *)
Lemma alarm_below_threshold (env : Env) (s : State) :
  keptAliveInSeconds s + 10 < KEEP_BROWSER_ALIVE_IN_SECONDS ->
  let r := Browser.alarm env s in
  outcome r = Returns tt
  /\ final r = set_alarms (Date_now env + 10 * 1000 :: alarms s)
                 (set_keptAliveInSeconds (keptAliveInSeconds s + 10) s)
  /\ count is_browser_close (events r) = 0%nat
  /\ count is_setAlarm (events r) = 1%nat
  /\ count is_launch_ok (events r) = 0%nat.
Proof.
  intros Hk. cbv zeta. unfold_handlers. simpl_state.
  destruct (Z.ltb_spec (keptAliveInSeconds s + 10)
              KEEP_BROWSER_ALIVE_IN_SECONDS) as [_ | Hge]; [| lia].
  simpl_state. repeat split.
Qed.

(** At the threshold a tick adds ten seconds, arms nothing and closes the
    browser the field refers to; what [close()] answers decides how the
    handler ends. *)
Lemma alarm_at_threshold (env : Env) (s : State) (b : PBrowser) :
  KEEP_BROWSER_ALIVE_IN_SECONDS <= keptAliveInSeconds s + 10 ->
  browser s = Some b ->
  let r := Browser.alarm env s in
  let s1 := set_keptAliveInSeconds (keptAliveInSeconds s + 10) s in
  events r = [EvLog ("Browser DO: exceeded life of "
                     +:+ pretty KEEP_BROWSER_ALIVE_IN_SECONDS +:+ "s.");
              EvLog "Closing browser.";
              EvBrowserClose (browser_id b) (browser_close_ok env)]
  /\ if browser_close_ok env
     then outcome r = Returns tt /\ final r = set_browser (Some (closed b)) s1
     else outcome r = Throws CloseError /\ final r = s1.
Proof.
  intros Hk Hb. cbv zeta. unfold_handlers. simpl_state.
  destruct (Z.ltb_spec (keptAliveInSeconds s + 10)
              KEEP_BROWSER_ALIVE_IN_SECONDS) as [Hlt | _]; [lia |].
  simpl_state. rewrite Hb.
  destruct (browser_close_ok env); simpl_state; repeat split.
Qed.

Lemma alarm_at_threshold_without_browser (env : Env) (s : State) :
  KEEP_BROWSER_ALIVE_IN_SECONDS <= keptAliveInSeconds s + 10 ->
  browser s = None ->
  let r := Browser.alarm env s in
  outcome r = Returns tt
  /\ final r = set_keptAliveInSeconds (keptAliveInSeconds s + 10) s
  /\ count is_browser_close (events r) = 0%nat
  /\ count is_setAlarm (events r) = 0%nat.
Proof.
  intros Hk Hb. cbv zeta. unfold_handlers. simpl_state.
  destruct (Z.ltb_spec (keptAliveInSeconds s + 10)
              KEEP_BROWSER_ALIVE_IN_SECONDS) as [Hlt | _]; [lia |].
  simpl_state. rewrite Hb. simpl_state. repeat split.
Qed.

(** ** [alarm]: a failing teardown *)

(** C8, as stated, fails: when [close()] is refused on the teardown path,
    [alarm] does not complete, it raises; and the field keeps the
    handle. *)
Lemma failed_teardown_raises :
  let r := Browser.alarm env_close_fails fifty_seconds_idle in
  keptAliveInSeconds fifty_seconds_idle = 50
  /\ outcome r = Throws CloseError
  /\ outcome r <> Returns tt
  /\ browser (final r) = browser fifty_seconds_idle
  /\ browser (final r) <> None.
Proof. vm_compute. repeat split; discriminate. Qed.

(** C8 (amended). When the teardown path of [alarm] runs and [close()] is
    refused, nothing catches or logs the failure: [alarm] ends by raising
    it to the platform that invoked it.  No capture caller is involved.
    The counter has been incremented, no alarm has been armed, and the
    field still refers to the same browser object. *)
Theorem failed_teardown_propagates (env : Env) (s : State) (b : PBrowser) :
  browser s = Some b ->
  KEEP_BROWSER_ALIVE_IN_SECONDS <= keptAliveInSeconds s + 10 ->
  browser_close_ok env = false ->
  let r := Browser.alarm env s in
  outcome r = Throws CloseError
  /\ browser (final r) = Some b
  /\ keptAliveInSeconds (final r) = keptAliveInSeconds s + 10
  /\ alarms (final r) = alarms s
  /\ events r = [EvLog ("Browser DO: exceeded life of "
                        +:+ pretty KEEP_BROWSER_ALIVE_IN_SECONDS +:+ "s.");
                 EvLog "Closing browser.";
                 EvBrowserClose (browser_id b) false].
Proof.
  intros Hb Hk Hclose.
  destruct (alarm_at_threshold env s b Hk Hb) as [Hev Hr].
  rewrite Hclose in Hev, Hr. destruct Hr as [Hout Hfin].
  cbv zeta. rewrite Hout, Hfin, Hev. simpl_state. auto.
Qed.

Lemma failed_teardown_propagates_witness :
  let s := {| browser := Some {| browser_id := 1; connected := true;
                                 open_pages := []; pages_created := 1 |};
              keptAliveInSeconds := 50; alarms := []; bucket := ∅ |} in
  let r := Browser.alarm env_close_fails s in
  outcome r = Throws CloseError
  /\ browser (final r) = Some {| browser_id := 1; connected := true;
                                 open_pages := []; pages_created := 1 |}
  /\ keptAliveInSeconds (final r) = 50 + 10
  /\ alarms (final r) = []
  /\ events r = [EvLog ("Browser DO: exceeded life of "
                        +:+ pretty KEEP_BROWSER_ALIVE_IN_SECONDS +:+ "s.");
                 EvLog "Closing browser.";
                 EvBrowserClose 1 false].
Proof.
  apply (failed_teardown_propagates env_close_fails
           {| browser := Some {| browser_id := 1; connected := true;
                                 open_pages := []; pages_created := 1 |};
              keptAliveInSeconds := 50; alarms := []; bucket := ∅ |}
           {| browser_id := 1; connected := true;
              open_pages := []; pages_created := 1 |}).
  - reflexivity.
  - vm_compute. discriminate.
  - reflexivity.
Defined.

(** ** Runs of the session *)

Lemma count_app (p : Event -> bool) (h1 h2 : list Event) :
  count p (h1 ++ h2)%list = (count p h1 + count p h2)%nat.
Proof. unfold count. now rewrite List.filter_app, List.length_app. Qed.

(** The history a run starts from is a prefix of the history it ends
    with. *)
Lemma exec_history (actions : list Action) (s : State) (h : list Event) :
  exec actions s h
  = (fst (exec actions s []), (h ++ snd (exec actions s []))%list).
Proof.
  revert s h. induction actions as [|a actions IH]; intros s h; simpl.
  - now rewrite List.app_nil_r.
  - destruct (step a s) as [s1 evs]. rewrite (IH s1 (h ++ evs)%list).
    rewrite (IH s1 evs). simpl. now rewrite <- List.app_assoc.
Qed.

Lemma exec_cons (a : Action) (actions : list Action) (s : State) :
  exec (a :: actions) s []
  = (fst (exec actions (fst (step a s)) []),
     (snd (step a s) ++ snd (exec actions (fst (step a s)) []))%list).
Proof.
  simpl. destruct (step a s) as [s1 evs]. simpl. apply exec_history.
Qed.

(** A property of the state and the history that every action preserves
    holds after every run. *)
Lemma exec_preserves (I : State -> list Event -> Prop) :
  (forall a s h, I s h -> I (fst (step a s)) (h ++ snd (step a s))%list) ->
  forall actions s h,
    I s h -> I (fst (exec actions s h)) (snd (exec actions s h)).
Proof.
  intros Hstep actions. induction actions as [|a actions IH]; intros s h HI.
  - exact HI.
  - simpl. specialize (Hstep a s h HI).
    destruct (step a s) as [s1 evs]. apply IH. exact Hstep.
Qed.

(** With no alarm pending, alarms do not fire. *)
Lemma exec_alarms_none_pending (envs : list Env) (s : State) :
  alarms s = [] -> exec (List.map Alarm envs) s [] = (s, []).
Proof.
  intros Hnone. induction envs as [|env envs IH]; [reflexivity |].
  rewrite List.map_cons, exec_cons. unfold step, fire_alarm.
  rewrite Hnone. simpl fst. simpl snd. now rewrite IH.
Qed.

(** ** Idle ticks *)

Lemma ticks_to_threshold_below (k : Z) :
  k + 10 < KEEP_BROWSER_ALIVE_IN_SECONDS ->
  ticks_to_threshold k = S (ticks_to_threshold (k + 10)).
Proof.
  unfold ticks_to_threshold, KEEP_BROWSER_ALIVE_IN_SECONDS. intros Hk.
  replace (60 - k + 9) with ((60 - (k + 10) + 9) + 1 * 10) by lia.
  rewrite Z.div_add by lia.
  assert (0 <= (60 - (k + 10) + 9) / 10) by (apply Z.div_pos; lia).
  assert (1 <= (60 - (k + 10) + 9) / 10).
  { apply Z.div_le_lower_bound; lia. }
  rewrite !Z.max_r by lia. rewrite Z2Nat.inj_add by lia. simpl. lia.
Qed.

Lemma ticks_to_threshold_reached (k : Z) :
  KEEP_BROWSER_ALIVE_IN_SECONDS <= k + 10 -> ticks_to_threshold k = 1%nat.
Proof.
  unfold ticks_to_threshold, KEEP_BROWSER_ALIVE_IN_SECONDS. intros Hk.
  assert ((60 - k + 9) / 10 <= 1).
  { apply Z.lt_succ_r. apply Z.div_lt_upper_bound; lia. }
  rewrite Z.max_l by lia. reflexivity.
Qed.


Lemma fire_alarm_below (env : Env) (s : State) (t : Z) :
  alarms s = [t] ->
  keptAliveInSeconds s + 10 < KEEP_BROWSER_ALIVE_IN_SECONDS ->
  let r := fire_alarm env s in
  keptAliveInSeconds (fst r) = keptAliveInSeconds s + 10
  /\ browser (fst r) = browser s
  /\ alarms (fst r) = [Date_now env + 10 * 1000]
  /\ count is_browser_close (snd r) = 0%nat.
Proof.
  intros Ht Hk. cbv zeta. unfold fire_alarm. rewrite Ht.
  destruct (alarm_below_threshold env (set_alarms [] s) Hk)
    as (Hout & Hfin & Hclose & _).
  rewrite Hout. simpl fst. simpl snd. rewrite Hfin.
  repeat split. exact Hclose.
Qed.





Example six_ticks_after_a_capture :
  let '(s, h) :=
    run (Fetch (capture_request "https://example.com/" "user_42") env_ok
         :: repeat (Alarm env_ok) 6) in
  keptAliveInSeconds s = 60 /\ alarms s = []
  /\ count is_browser_close h = 1%nat
  /\ option_map connected (browser s) = Some false.
Proof. vm_compute. repeat split. Qed.

(** ** A capture on a warm session *)

(** A valid request that finds a connected browser behind the field resets
    the counter and goes on with that browser: no launch, no teardown. *)
Lemma fetch_reuses_connected_browser
    (request : Request) (env : Env) (s : State) (b : PBrowser) :
  let r := Browser.fetch request env s in
  falsy (headers_get (req_headers request) "url") = false ->
  falsy (headers_get (req_headers request) "user-id") = false ->
  URL_href env (str (headers_get (req_headers request) "url")) <> None ->
  browser s = Some b -> connected b = true ->
  keptAliveInSeconds (final r) = 0
  /\ (exists b', browser (final r) = Some b'
                 /\ browser_id b' = browser_id b /\ connected b' = true)
  /\ count is_browser_close (events r) = 0%nat
  /\ count is_launch (events r) = 0%nat
  /\ exists resp, outcome r = Returns resp.
Proof.
  cbv zeta. unfold falsy. unfold_handlers. name_headers request.
  intros Hurl Hid Hparse Hb Hconn.
  destruct s as [sb sk sa sm]. simpl in Hb. subst sb.
  destruct b as [bid bc bp bn]. simpl in Hconn. subst bc.
  apply negb_false_iff in Hurl, Hid. rewrite Hurl, Hid.
  destruct (URL_href env (str urlHeader)) as [href|]; [| now contradiction Hparse].
  cbn [connected browser_id].
  repeat (simpl_state; split_match); simpl_state; cbn [connected browser_id].
  all: repeat split; eauto.
Qed.

(** Below the threshold the ticks need nothing from the platform. *)
Lemma idle_ticks_below (envs : list Env) :
  forall (s : State) (b : PBrowser) (t : Z),
    browser s = Some b -> alarms s = [t] ->
    (length envs < ticks_to_threshold (keptAliveInSeconds s))%nat ->
    let s' := fst (exec (List.map Alarm envs) s []) in
    let h := snd (exec (List.map Alarm envs) s []) in
    keptAliveInSeconds s' = keptAliveInSeconds s + 10 * Z.of_nat (length envs)
    /\ browser s' = Some b
    /\ count is_browser_close h = 0%nat
    /\ length (alarms s') = 1%nat.
Proof.
  induction envs as [|env envs IH]; intros s b t Hb Ht Hlen; cbv zeta.
  - simpl. rewrite Ht. repeat split; auto. lia.
  - rewrite List.map_cons, exec_cons. simpl fst. simpl snd.
    change (step (Alarm env) s) with (fire_alarm env s).
    change (length (env :: envs)) with (S (length envs)) in *.
    destruct (Z.lt_ge_cases (keptAliveInSeconds s + 10)
                KEEP_BROWSER_ALIVE_IN_SECONDS) as [Hk | Hk].
    + destruct (fire_alarm_below env s t Ht Hk) as (Hk1 & Hb1 & Ht1 & Hc1).
      rewrite Hb in Hb1.
      rewrite (ticks_to_threshold_below _ Hk), <- Hk1 in Hlen.
      destruct (IH (fst (fire_alarm env s)) b _ Hb1 Ht1 ltac:(lia))
        as (H1 & H2 & H3 & H4).
      rewrite count_app, Hc1, H3. repeat split; try assumption. lia.
    + rewrite (ticks_to_threshold_reached _ Hk) in Hlen. lia.
Qed.

(** C7. After [N] idle ticks, [0 < N < 6], a valid capture request finds
    the counter at [10 * N], resets it to zero and goes on with the
    browser the session already holds: the same browser, still connected,
    not relaunched, never closed; whatever the page operations answer. *)
Theorem capture_after_idle_ticks
    (s : State) (b : PBrowser) (t : Z) (envs : list Env)
    (request : Request) (env : Env) (url userId : string) :
  browser s = Some b -> connected b = true ->
  keptAliveInSeconds s = 0 -> alarms s = [t] ->
  (0 < length envs < 6)%nat ->
  headers_get (req_headers request) "url" = Some url -> url <> "" ->
  URL_href env url <> None ->
  headers_get (req_headers request) "user-id" = Some userId ->
  userId <> "" ->
  let s1 := fst (exec (List.map Alarm envs) s []) in
  let h1 := snd (exec (List.map Alarm envs) s []) in
  let r := Browser.fetch request env s1 in
  keptAliveInSeconds s1 = 10 * Z.of_nat (length envs)
  /\ keptAliveInSeconds (final r) = 0
  /\ (exists b', browser (final r) = Some b'
                 /\ browser_id b' = browser_id b /\ connected b' = true)
  /\ count is_browser_close (h1 ++ events r)%list = 0%nat
  /\ count is_launch (events r) = 0%nat.
Proof.
  intros Hb Hconn Hk Ht Hn Hurl Hurl' Hparse Hid Hid'. cbv zeta.
  assert (Hneed : ticks_to_threshold (keptAliveInSeconds s) = 6%nat)
    by (rewrite Hk; reflexivity).
  destruct (idle_ticks_below envs s b t Hb Ht ltac:(lia))
    as (H1 & H2 & H3 & H4).
  assert (Hu : falsy (headers_get (req_headers request) "url") = false).
  { apply falsy_false_iff. eauto. }
  assert (Hi : falsy (headers_get (req_headers request) "user-id") = false).
  { apply falsy_false_iff. eauto. }
  assert (Hp : URL_href env (str (headers_get (req_headers request) "url"))
               <> None) by (rewrite Hurl; exact Hparse).
  destruct (fetch_reuses_connected_browser request env _ b Hu Hi Hp H2 Hconn)
    as (F1 & F2 & F3 & F4 & _).
  rewrite count_app, H3, F3. rewrite H1, Hk.
  repeat split; try assumption; lia.
Qed.

(** Three idle ticks after a first capture, then a capture whose
    navigation fails. *)
Lemma capture_after_idle_ticks_witness :
  let s := fst (run [Fetch (capture_request "https://example.com/" "user_42")
                       env_ok]) in
  let envs := repeat env_ok 3 in
  let s1 := fst (exec (List.map Alarm envs) s []) in
  let h1 := snd (exec (List.map Alarm envs) s []) in
  let r := Browser.fetch (capture_request "https://example.org/" "user_7")
             env_goto_fails s1 in
  keptAliveInSeconds s1 = 10 * Z.of_nat (length envs)
  /\ keptAliveInSeconds (final r) = 0
  /\ (exists b', browser (final r) = Some b'
                 /\ browser_id b'
                    = browser_id {| browser_id := 1; connected := true;
                                    open_pages := []; pages_created := 1 |}
                 /\ connected b' = true)
  /\ count is_browser_close (h1 ++ events r)%list = 0%nat
  /\ count is_launch (events r) = 0%nat.
Proof.
  apply (capture_after_idle_ticks
           (fst (run [Fetch (capture_request "https://example.com/" "user_42")
                        env_ok]))
           {| browser_id := 1; connected := true;
              open_pages := []; pages_created := 1 |}
           1010000 (repeat env_ok 3)
           (capture_request "https://example.org/" "user_7") env_goto_fails
           "https://example.org/" "user_7").
  - vm_compute. reflexivity.
  - reflexivity.
  - vm_compute. reflexivity.
  - vm_compute. reflexivity.
  - simpl. lia.
  - reflexivity.
  - discriminate.
  - vm_compute. discriminate.
  - reflexivity.
  - discriminate.
Defined.

(** ** At most one pending alarm *)

(** [fetch] arms an alarm only when none is pending. *)
Lemma fetch_alarms (request : Request) (env : Env) (s : State) :
  let r := Browser.fetch request env s in
  (alarms (final r) = alarms s /\ count is_setAlarm (events r) = 0%nat)
  \/ (alarms s = [] /\ alarms (final r) = [Date_now env + 10 * 1000]
      /\ count is_setAlarm (events r) = 1%nat).
Proof.
  cbv zeta. unfold_handlers. name_headers request.
  destruct s as [sb sk sa sm].
  repeat (simpl_state; split_match); simpl_state.
  all: try (left; split; reflexivity).
  all: right; destruct sa; [repeat split | discriminate].
Qed.

(** [alarm] arms at most one alarm, and none when it raises. *)
Lemma alarm_alarms (env : Env) (s : State) :
  let r := Browser.alarm env s in
  (alarms (final r) = alarms s /\ count is_setAlarm (events r) = 0%nat)
  \/ (outcome r = Returns tt
      /\ alarms (final r) = Date_now env + 10 * 1000 :: alarms s
      /\ count is_setAlarm (events r) = 1%nat).
Proof.
  cbv zeta. unfold_handlers.
  destruct s as [sb sk sa sm].
  repeat (simpl_state; split_match); simpl_state.
  all: try (left; split; reflexivity).
  all: right; repeat split.
Qed.

Lemma step_at_most_one_alarm (a : Action) (s : State) :
  (length (alarms s) <= 1)%nat ->
  (length (alarms (fst (step a s))) <= 1)%nat.
Proof.
  intros Hs. destruct a as [request env | env |]; simpl.
  - destruct (fetch_alarms request env s) as [[-> _] | (_ & -> & _)];
      [exact Hs | simpl; lia].
  - unfold fire_alarm. destruct (alarms s) as [|t pending] eqn:Ht;
      [simpl; rewrite Ht; simpl; lia |].
    assert (Hp : pending = []) by (destruct pending; [reflexivity | simpl in Hs; lia]).
    subst pending.
    destruct (alarm_alarms env (set_alarms [] s)) as [[Ha _] | (Hout & Ha & _)].
    + destruct (outcome (Browser.alarm env (set_alarms [] s)));
        [| destruct (alarm_retry env)]; simpl; rewrite Ha; simpl; lia.
    + rewrite Hout. simpl. rewrite Ha. simpl. lia.
  - unfold disconnect. destruct (browser s); exact Hs.
Qed.

(** C6. In every state the session reaches through captures, alarm
    deliveries and connection losses, at most one alarm is pending; and a
    capture that finds an alarm pending arms none. *)
Theorem at_most_one_pending_alarm :
  (forall actions, (length (alarms (fst (run actions))) <= 1)%nat)
  /\ (forall request env s,
        alarms s <> [] ->
        count is_setAlarm (events (Browser.fetch request env s)) = 0%nat
        /\ alarms (final (Browser.fetch request env s)) = alarms s).
Proof.
  split.
  - intros actions. unfold run.
    apply (exec_preserves (fun s _ => (length (alarms s) <= 1)%nat)).
    + intros a s h. apply step_at_most_one_alarm.
    + simpl. lia.
  - intros request env s Hpending.
    destruct (fetch_alarms request env s) as [[Ha Hc] | (Hnone & _)].
    + split; assumption.
    + contradiction.
Qed.

(** A second capture while the alarm of the first is pending. *)
Lemma at_most_one_pending_alarm_witness :
  let s := fst (run [Fetch (capture_request "https://example.com/" "user_42")
                       env_ok]) in
  let r := Browser.fetch (capture_request "https://example.org/" "user_7")
             env_ok s in
  (length (alarms (final r)) <= 1)%nat
  /\ count is_setAlarm (events r) = 0%nat
  /\ alarms (final r) = alarms s.
Proof.
  split.
  - apply (proj1 at_most_one_pending_alarm
             [Fetch (capture_request "https://example.com/" "user_42") env_ok;
              Fetch (capture_request "https://example.org/" "user_7") env_ok]).
  - apply (proj2 at_most_one_pending_alarm). vm_compute. discriminate.
Defined.

(** ** The browser field *)

(** [fetch] makes the field non-null exactly when it launches, and a
    connected browser behind the field after [fetch] was connected before
    or has just been launched. *)
Lemma fetch_browser_field (request : Request) (env : Env) (s : State) :
  let r := Browser.fetch request env s in
  (browser (final r) <> None <->
   browser s <> None \/ (0 < count is_launch_ok (events r))%nat)
  /\ (forall alive,
        (forall b, browser s = Some b -> connected b = true -> alive = true) ->
        forall b', browser (final r) = Some b' -> connected b' = true ->
        fold_left lifecycle (events r) alive = true)
  /\ (In (EvLaunch None) (events r) -> browser (final r) = browser s).
Proof.
  cbv zeta. unfold_handlers. name_headers request.
  destruct s as [sb sk sa sm].
  repeat (simpl_state; split_match); simpl_state.
  all: cbn [count is_launch_ok List.filter length fold_left lifecycle In].
  all: split; [| split].
  all: try (intros alive Hpre b' Hb' Hc'; try discriminate Hb';
            injection Hb' as <-; cbn in Hc'; try reflexivity;
            eapply Hpre; [reflexivity | assumption]).
  all: try (intros Hin;
            repeat match type of Hin with
                   | _ \/ _ => destruct Hin as [Hin | Hin];
                                try discriminate Hin
                   end;
            try contradiction; reflexivity).
  all: intuition (first [congruence | lia]).
Qed.

(** [alarm] never assigns the field: a browser stays behind it, closed or
    not, and a field that is null stays null. *)
Lemma alarm_browser_field (env : Env) (s : State) :
  let r := Browser.alarm env s in
  (forall b, browser s = Some b ->
             exists b', browser (final r) = Some b'
                        /\ browser_id b' = browser_id b)
  /\ (browser s = None -> browser (final r) = None)
  /\ count is_launch_ok (events r) = 0%nat
  /\ (forall alive,
        (forall b, browser s = Some b -> connected b = true -> alive = true) ->
        forall b', browser (final r) = Some b' -> connected b' = true ->
        fold_left lifecycle (events r) alive = true).
Proof.
  cbv zeta. unfold_handlers.
  destruct s as [sb sk sa sm].
  repeat (simpl_state; split_match); simpl_state.
  all: cbn [count is_launch_ok List.filter length fold_left lifecycle].
  all: repeat split; try congruence; eauto.
  all: try (intros b [= <-]; eauto).
  all: intros alive Hpre b' Hb' Hc'; try discriminate Hb';
       try (injection Hb' as <-; cbn in Hc');
       first [ discriminate Hc'
             | eapply Hpre; [first [reflexivity | eassumption] | assumption] ].
Qed.

Lemma step_field_invariant (a : Action) (s : State) (h : list Event) :
  field_invariant s h ->
  field_invariant (fst (step a s)) (h ++ snd (step a s))%list.
Proof.
  unfold field_invariant, launched_and_not_closed.
  intros [Hnull Hlive]. rewrite count_app, fold_left_app.
  destruct a as [request env | env |]; simpl.
  - destruct (fetch_browser_field request env s) as (Ha & Hb & _).
    split; [rewrite Ha, Hnull; lia |].
    intros b'. apply Hb. exact Hlive.
  - unfold fire_alarm. destruct (alarms s) as [|t pending] eqn:Ht.
    + simpl. rewrite Nat.add_0_r. split; assumption.
    + destruct (alarm_browser_field env (set_alarms pending s))
        as (Hsome & Hnone & Hcount & Hfold).
      assert (Hkeep : forall s1 evs,
                browser s1 = browser (final (Browser.alarm env
                                               (set_alarms pending s))) ->
                evs = events (Browser.alarm env (set_alarms pending s)) ->
                (browser s1 <> None <->
                 (0 < count is_launch_ok h + count is_launch_ok evs)%nat)
                /\ (forall b, browser s1 = Some b -> connected b = true ->
                              fold_left lifecycle evs
                                (fold_left lifecycle h false) = true)).
      { intros s1 evs -> ->. rewrite Hcount, Nat.add_0_r. split.
        - rewrite <- Hnull. simpl in Hsome, Hnone.
          destruct (browser s) as [b|].
          + destruct (Hsome b eq_refl) as (b' & -> & _). split; discriminate.
          + rewrite (Hnone eq_refl). tauto.
        - intros b'. apply Hfold. exact Hlive. }
      destruct (outcome (Browser.alarm env (set_alarms pending s)));
        [| destruct (alarm_retry env)]; simpl; apply Hkeep; reflexivity.
  - rewrite Nat.add_0_r. unfold disconnect.
    destruct (browser s) as [b|] eqn:Hb; simpl.
    + split.
      * rewrite <- Hnull. split; discriminate.
      * intros b' [= <-]. discriminate.
    + rewrite Hb. split; [assumption |]. discriminate.
Qed.

(** C5, as stated, fails: after the idle-threshold teardown has completed
    the field is not null, and after a launch that failed it is not null
    either. *)
Lemma browser_field_outlives_teardown :
  let capture :=
    Fetch (capture_request "https://example.com/" "user_42") env_ok in
  let retry :=
    Fetch (capture_request "https://example.com/" "user_42")
      env_launch_fails in
  let torn_down := run (capture :: repeat (Alarm env_ok) 6) in
  let relaunch_failed := run (capture :: repeat (Alarm env_ok) 6 ++ [retry]) in
  In (EvBrowserClose 1 true) (snd torn_down)
  /\ launched_and_not_closed (snd torn_down) = false
  /\ browser (fst torn_down) <> None
  /\ ~ (browser (fst torn_down) <> None <->
        launched_and_not_closed (snd torn_down) = true)
  /\ In (EvLaunch None) (snd relaunch_failed)
  /\ browser (fst relaunch_failed) <> None.
Proof.
  vm_compute. repeat split; try discriminate; try tauto.
  intros [H _]. discriminate H. discriminate.
Qed.

(** C5 (amended). In every reachable state the browser field is non-null
    if and only if some launch has succeeded, and the browser behind it is
    connected only if a launch has succeeded with no teardown completed
    since.  No handler resets the field to null: [alarm] leaves a browser
    behind the field, also on the teardown path, and a [fetch] whose
    launch fails leaves the field as it found it. *)
Theorem browser_field_tracks_launches :
  (forall actions,
     let s := fst (run actions) in
     let h := snd (run actions) in
     (browser s <> None <-> (0 < count is_launch_ok h)%nat)
     /\ (forall b, browser s = Some b -> connected b = true ->
                   launched_and_not_closed h = true))
  /\ (forall env s b,
        browser s = Some b ->
        exists b', browser (fst (fire_alarm env s)) = Some b'
                   /\ browser_id b' = browser_id b)
  /\ (forall request env s,
        In (EvLaunch None) (events (Browser.fetch request env s)) ->
        browser (final (Browser.fetch request env s)) = browser s).
Proof.
  split; [| split].
  - intros actions. cbv zeta. unfold run.
    apply (exec_preserves field_invariant).
    + apply step_field_invariant.
    + unfold field_invariant, launched_and_not_closed. simpl.
      split; [split; [intros H; now contradiction H
                     | unfold count; simpl; intros H; exfalso; lia]
             | discriminate].
  - intros env s b Hb. unfold fire_alarm.
    destruct (alarms s) as [|t pending]; [simpl; eauto |].
    destruct (alarm_browser_field env (set_alarms pending s))
      as (Hsome & _).
    destruct (Hsome b Hb) as (b' & Hb' & Hid).
    destruct (outcome (Browser.alarm env (set_alarms pending s)));
      [| destruct (alarm_retry env)]; simpl; eauto.
  - intros request env s.
    apply (fetch_browser_field request env s).
Qed.

(** The teardown after six idle ticks, and a relaunch that fails. *)
Lemma browser_field_tracks_launches_witness :
  let s := fst (run (Fetch (capture_request "https://example.com/" "user_42")
                       env_ok :: repeat (Alarm env_ok) 5)) in
  (exists b', browser (fst (fire_alarm env_ok s)) = Some b'
              /\ browser_id b'
                 = browser_id {| browser_id := 1; connected := true;
                                 open_pages := []; pages_created := 1 |})
  /\ browser (final (Browser.fetch
                       (capture_request "https://example.com/" "user_42")
                       env_launch_fails (fst (fire_alarm env_ok s))))
     = browser (fst (fire_alarm env_ok s)).
Proof.
  pose proof browser_field_tracks_launches as (_ & Halarm & Hfetch).
  split.
  - apply Halarm. vm_compute. reflexivity.
  - apply Hfetch. vm_compute. tauto.
Defined.

(** ** The second class *)

(** Its [fetch] leaves the page open on a failure path as well. *)
Lemma Browser2_page_left_open_when_navigation_fails :
  let r := Browser2.fetch (capture_request "https://example.com/" "user_42")
             env_goto_fails constructed in
  outcome r = Returns (Response_text "Error during page operations" 500)
  /\ count (is_page_open 0) (events r) = 1%nat
  /\ count (is_page_close 0) (events r) = 0%nat
  /\ option_map open_pages (browser (final r)) = Some [0%nat].
Proof. vm_compute. repeat split. Qed.

(** Without a [url] header it does not reject the request: it goes on to
    launch a browser for the default URL. *)
Lemma Browser2_missing_url_is_not_rejected :
  let request :=
    {| req_url := "clipster://capture"; req_method := "GET";
       req_headers := [("user-id", "user_42")]; req_form := None |} in
  let r := Browser2.fetch request env_ok constructed in
  headers_get (req_headers request) "url" = None
  /\ In (EvLaunch (Some 1%nat)) (events r)
  /\ exists resp, outcome r = Returns resp /\ status resp = 200.
Proof. vm_compute. repeat split; [tauto | eauto]. Qed.

(** X23. The second class never asks for a full-page screenshot, and its
    responses are plain text, but for the success, whose flag is spelled
    [sucess]. *)
Lemma Browser2_responses
    (request : Request) (env : Env) (s : State) (resp : Response) :
  let r := Browser2.fetch request env s in
  (forall page path fp ok,
     In (EvScreenshot page path fp ok) (events r) -> fp = false)
  /\ (outcome r = Returns resp ->
      (status resp = 200
       /\ exists keys,
            body resp = BodyJson [("sucess", JBool true);
                                  ("captureKey", JArr keys)])
      \/ ((status resp = 400 \/ status resp = 500)
          /\ exists text, body resp = BodyText text)).
Proof.
  cbv zeta. unfold_handlers. name_headers request. clear fullPage.
  repeat (simpl_state; split_match); simpl_state.
  all: split;
    [ intros page path fp ok Hin; simpl In in Hin;
      repeat match type of Hin with
             | _ \/ _ => destruct Hin as [Hin | Hin]; try discriminate Hin
             end;
      try contradiction; injection Hin; intros; subst; reflexivity
    | intros Hout; try discriminate Hout; injection Hout as <-;
      cbn [status body Response_json Response_text];
      first [ left; split; [reflexivity | eexists; reflexivity]
            | right; split; [auto | eexists; reflexivity] ] ].
Qed.

(** ** The router *)


(** An authenticated POST that carries a URL is handed to the durable
    object: the run of the router is the run of [Browser.fetch] on the
    request built at line 49. *)
Lemma worker_fetch_forwards
    (request : Request) (env : Env) (s : State)
    (userId url : string) (form : FormData) :
  URL_href env (req_url request) <> None ->
  auth_userId env = Some userId -> userId <> "" ->
  req_method request = "POST" ->
  req_form request = Some form ->
  formData_get form "url" = Some url -> url <> "" ->
  worker_fetch request env s
  = Browser.fetch (capture_request url userId) env s.
Proof.
  intros Hparse Hauth Hid Hpost Hform Hurl Hne.
  unfold worker_fetch, request_formData, capture_request.
  cbv beta iota zeta delta
    [mbind mret M_bind M_ret bind ret throw ask new_URL].
  destruct (URL_href env (req_url request)) as [href|];
    [| now contradiction Hparse].
  rewrite Hauth, Hpost, Hform. cbn [String.eqb Ascii.eqb Bool.eqb].
  rewrite Hurl.
  destruct userId as [|c userId]; [now contradiction Hid |].
  destruct url as [|c' url]; [now contradiction Hne |].
  cbn [falsy Boolean negb orb str].
  destruct (Browser.fetch _ env s) as [[resp | e] s1 evs]; cbn [app];
    now rewrite ?List.app_nil_r.
Qed.

(** Every way through the router. *)
Lemma worker_fetch_cases (request : Request) (env : Env) (s : State) :
  let r := worker_fetch request env s in
  (URL_href env (req_url request) = None /\ final r = s /\ events r = []
   /\ exists e, outcome r = Throws e)
  \/ (URL_href env (req_url request) <> None /\
      ((falsy (auth_userId env) = true
        /\ answers_at_once r s (Response_redirect (signInUrl env) 307))
       \/ (falsy (auth_userId env) = false /\
           ((req_method request = "GET"
             /\ answers_at_once r s
                  (Response_text
                     ("Hello from the browser Durable Object! Bucket origin: "
                      +:+ BUCKET_ORIGIN env) 200))
            \/ (req_method request <> "GET" /\ req_method request <> "POST"
                /\ answers_at_once r s (Response_text "Invalid method" 405))
            \/ (req_method request = "POST" /\
                ((req_form request = None /\ final r = s /\ events r = []
                  /\ exists e, outcome r = Throws e)
                 \/ (exists form,
                       req_form request = Some form
                       /\ falsy (formData_get form "url") = true
                       /\ answers_at_once r s
                            (Response_text "Invalid capture options" 400))
                 \/ (exists form url userId,
                       req_form request = Some form
                       /\ formData_get form "url" = Some url /\ url <> ""
                       /\ auth_userId env = Some userId /\ userId <> ""
                       /\ r = Browser.fetch (capture_request url userId)
                                env s))))))).
Proof.
  cbv zeta.
  destruct (URL_href env (req_url request)) as [href|] eqn:Hparse.
  2: { left. unfold worker_fetch.
       cbv beta iota zeta delta
         [mbind mret M_bind M_ret bind ret throw ask new_URL].
       rewrite Hparse. repeat split. eauto. }
  right. split; [discriminate |].
  assert (Hparse' : URL_href env (req_url request) <> None)
    by (rewrite Hparse; discriminate).
  destruct (falsy (auth_userId env)) eqn:Hauth.
  { left. split; [reflexivity |]. unfold answers_at_once, worker_fetch.
    cbv beta iota zeta delta
      [mbind mret M_bind M_ret bind ret throw ask new_URL].
    rewrite Hparse, Hauth. reflexivity. }
  right. split; [reflexivity |].
  destruct (String.eqb_spec (req_method request) "GET") as [Hget | Hget].
  { left. split; [exact Hget |]. unfold answers_at_once, worker_fetch.
    cbv beta iota zeta delta
      [mbind mret M_bind M_ret bind ret throw ask new_URL].
    rewrite Hparse, Hauth, Hget. reflexivity. }
  right.
  destruct (String.eqb_spec (req_method request) "POST") as [Hpost | Hpost].
  2: { left. repeat split; try assumption.
       unfold answers_at_once, worker_fetch.
       cbv beta iota zeta delta
         [mbind mret M_bind M_ret bind ret throw ask new_URL].
       rewrite Hparse, Hauth.
       destruct (String.eqb_spec (req_method request) "GET");
         [contradiction |].
       destruct (String.eqb_spec (req_method request) "POST");
         [contradiction | reflexivity]. }
  right. split; [exact Hpost |].
  destruct (req_form request) as [form|] eqn:Hform.
  2: { left. unfold worker_fetch, request_formData.
       cbv beta iota zeta delta
         [mbind mret M_bind M_ret bind ret throw ask new_URL].
       rewrite Hparse, Hauth, Hpost, Hform. cbn [String.eqb Ascii.eqb Bool.eqb].
       repeat split. eauto. }
  right.
  destruct (falsy (formData_get form "url")) eqn:Hurl.
  { left. exists form. split; [reflexivity | split; [exact Hurl |]].
    unfold answers_at_once, worker_fetch, request_formData.
    cbv beta iota zeta delta
      [mbind mret M_bind M_ret bind ret throw ask new_URL].
    rewrite Hparse, Hauth, Hpost, Hform. cbn [String.eqb Ascii.eqb Bool.eqb].
    rewrite Hurl. reflexivity. }
  right.
  apply falsy_false_iff in Hauth as (userId & Hauth & Hid).
  apply falsy_false_iff in Hurl as (url & Hurl & Hne).
  exists form, url, userId. repeat split; try assumption.
  now apply (worker_fetch_forwards request env s userId url form).
Qed.

(** The [fullPage] option of the screenshot is the truthiness of the
    [full-page] header. *)
Lemma fetch_screenshot_flag
    (request : Request) (env : Env) (s : State)
    (page : nat) (path : string) (fp ok : bool) :
  In (EvScreenshot page path fp ok) (events (Browser.fetch request env s)) ->
  fp = Boolean (headers_get (req_headers request) "full-page").
Proof.
  unfold_handlers. name_headers request.
  repeat (simpl_state; split_match); simpl_state; simpl In;
    intros Hin;
    repeat match type of Hin with
           | _ \/ _ => destruct Hin as [Hin | Hin]; try discriminate Hin
           end;
    try contradiction; injection Hin; intros; subst; reflexivity.
Qed.




(** X2. Only an authenticated POST that carries a non-empty [url] field
    reaches the durable object: any other request makes no platform call
    and leaves the session as it was. *)
Theorem only_authenticated_posts_reach_the_browser
    (request : Request) (env : Env) (s : State) :
  let r := worker_fetch request env s in
  events r <> [] \/ final r <> s ->
  req_method request = "POST"
  /\ (exists userId, auth_userId env = Some userId /\ userId <> "")
  /\ (exists form url,
        req_form request = Some form
        /\ formData_get form "url" = Some url /\ url <> "").
Proof.
  cbv zeta. intros Htouch.
  destruct (worker_fetch_cases request env s)
    as [(_ & Hs & Hev & _)
       | (_ & [(_ & Hr)
              | (_ & [(_ & Hr)
                     | [(_ & _ & Hr)
                       | (Hpost & [(_ & Hs & Hev & _)
                                  | [(form & _ & _ & Hr)
                                    | (form & url & userId & Hform & Hurl
                                       & Hne & Hauth & Hid & _)]])]])])].
  all: try (rewrite Hr in Htouch; simpl in Htouch;
            destruct Htouch as [H | H]; now contradiction H).
  all: try (rewrite Hs, Hev in Htouch;
            destruct Htouch as [H | H]; now contradiction H).
  split; [exact Hpost |]. split; eauto.
Qed.

Lemma only_authenticated_posts_reach_the_browser_witness :
  req_method (post_request "https://example.com/") = "POST"
  /\ (exists userId, auth_userId env_ok = Some userId /\ userId <> "")
  /\ (exists form url,
        req_form (post_request "https://example.com/") = Some form
        /\ formData_get form "url" = Some url /\ url <> "").
Proof.
  apply (only_authenticated_posts_reach_the_browser
           (post_request "https://example.com/") env_ok constructed).
  left. vm_compute. discriminate.
Defined.

(** X3. A capture made through the router never takes a full-page
    screenshot: the request the router builds for the durable object
    carries the user id and the URL, and no [full-page] header. *)
Theorem router_captures_are_never_full_page
    (request : Request) (env : Env) (s : State)
    (page : nat) (path : string) (fp ok : bool) :
  In (EvScreenshot page path fp ok) (events (worker_fetch request env s)) ->
  fp = false.
Proof.
  intros Hin.
  destruct (worker_fetch_cases request env s)
    as [(_ & _ & Hev & _)
       | (_ & [(_ & Hr)
              | (_ & [(_ & Hr)
                     | [(_ & _ & Hr)
                       | (_ & [(_ & _ & Hev & _)
                              | [(form & _ & _ & Hr)
                                | (form & url & userId & _ & _ & _ & _ & _
                                   & Hfwd)]])]])])].
  all: try (rewrite Hr in Hin; now contradiction Hin).
  all: try (rewrite Hev in Hin; now contradiction Hin).
  rewrite Hfwd in Hin. apply fetch_screenshot_flag in Hin. exact Hin.
Qed.

Lemma router_captures_are_never_full_page_witness : false = false.
Proof.
  apply (router_captures_are_never_full_page
           (post_request "https://example.com/") env_ok constructed
           0%nat "O18elsz.jpg" false true).
  vm_compute. tauto.
Defined.



(** ** [fetch]: what it leaves alone *)

(** X5. When the launch is refused, [fetch] answers the 500
    [Failed to start browser] and leaves the whole session as it found it:
    the field, the idle counter (not reset), the alarms and the bucket. *)
Theorem failed_launch_changes_nothing
    (request : Request) (env : Env) (s : State) :
  let r := Browser.fetch request env s in
  In (EvLaunch None) (events r) ->
  outcome r = Returns (Response_json (failure "Failed to start browser") 500)
  /\ final r = s
  /\ count is_newPage (events r) = 0%nat.
Proof.
  cbv zeta. unfold_handlers. name_headers request.
  destruct s as [sb sk sa sm].
  repeat (simpl_state; split_match); simpl_state; simpl In;
    intros Hin;
    repeat match type of Hin with
           | _ \/ _ => destruct Hin as [Hin | Hin]; try discriminate Hin
           end;
    try contradiction.
  all: repeat split; congruence.
Qed.

Lemma failed_launch_changes_nothing_witness :
  let s := {| browser := None; keptAliveInSeconds := 40;
              alarms := [1234]; bucket := ∅ |} in
  let r := Browser.fetch (capture_request "https://example.com/" "user_42")
             env_launch_fails s in
  outcome r = Returns (Response_json (failure "Failed to start browser") 500)
  /\ final r = s
  /\ count is_newPage (events r) = 0%nat.
Proof.
  apply (failed_launch_changes_nothing
           (capture_request "https://example.com/" "user_42")
           env_launch_fails
           {| browser := None; keptAliveInSeconds := 40;
              alarms := [1234]; bucket := ∅ |}).
  vm_compute. tauto.
Defined.

(** X6. [fetch] never closes a browser, also not the disconnected one it
    replaces by a new launch. *)
Theorem fetch_never_closes_the_browser
    (request : Request) (env : Env) (s : State) :
  count is_browser_close (events (Browser.fetch request env s)) = 0%nat.
Proof.
  unfold_handlers. name_headers request.
  repeat (simpl_state; split_match); simpl_state; reflexivity.
Qed.

(** X7. [fetch] has no retry: in one call it launches at most once, opens
    at most one page, navigates, takes a screenshot, writes to the bucket
    and closes the page at most once each, and arms at most one alarm. *)
Theorem fetch_calls_the_platform_at_most_once
    (request : Request) (env : Env) (s : State) :
  let evs := events (Browser.fetch request env s) in
  (count is_launch evs <= 1)%nat
  /\ (count is_newPage evs <= 1)%nat
  /\ (count is_goto evs <= 1)%nat
  /\ (count is_screenshot evs <= 1)%nat
  /\ (count is_put evs <= 1)%nat
  /\ (count is_any_page_close evs <= 1)%nat
  /\ (count is_setAlarm evs <= 1)%nat.
Proof.
  cbv zeta. unfold_handlers. name_headers request.
  repeat (simpl_state; split_match); simpl_state.
  all: cbv [count List.filter length is_launch is_newPage is_goto
            is_screenshot is_put is_any_page_close is_setAlarm].
  all: repeat split; lia.
Qed.

(** X8. [alarm] only counts, arms and closes: the platform calls it makes
    are log lines, [setAlarm] and [close()], it leaves the bucket alone
    and never launches a browser or opens a page. *)
Theorem alarm_only_counts_arms_and_closes (env : Env) (s : State) :
  let r := Browser.alarm env s in
  bucket (final r) = bucket s
  /\ keptAliveInSeconds (final r) = keptAliveInSeconds s + 10
  /\ Forall (fun e => is_log e || is_setAlarm e || is_browser_close e = true)
        (events r).
Proof.
  cbv zeta. unfold_handlers.
  destruct s as [sb sk sa sm].
  repeat (simpl_state; split_match); simpl_state.
  all: repeat split; repeat constructor.
Qed.

(** X9. [fetch] writes to the bucket under the storage key of this
    capture only: every other object is left as it was, whatever the
    outcome. *)
Theorem fetch_writes_only_its_key
    (request : Request) (env : Env) (s : State) (k : string) :
  k <> storage_key (str (headers_get (req_headers request) "user-id"))
         (generateId None (random_pick env)) ->
  bucket (final (Browser.fetch request env s)) !! k = bucket s !! k.
Proof.
  unfold_handlers. name_headers request.
  destruct s as [sb sk sa sm].
  repeat (simpl_state; split_match); simpl_state; intros Hk;
    try reflexivity.
  all: rewrite storage_key_eq; apply lookup_insert_ne; congruence.
Qed.

Lemma fetch_writes_only_its_key_witness :
  let s := {| browser := None; keptAliveInSeconds := 0; alarms := [];
              bucket := {[ "captures/user-dXNlcl83/Oabcdef.jpg"
                           := sample_image ]} |} in
  bucket (final (Browser.fetch
                   (capture_request "https://example.com/" "user_42")
                   env_ok s))
    !! "captures/user-dXNlcl83/Oabcdef.jpg"
  = bucket s !! "captures/user-dXNlcl83/Oabcdef.jpg".
Proof.
  apply (fetch_writes_only_its_key
           (capture_request "https://example.com/" "user_42") env_ok
           {| browser := None; keptAliveInSeconds := 0; alarms := [];
              bucket := {[ "captures/user-dXNlcl83/Oabcdef.jpg"
                           := sample_image ]} |}).
  vm_compute. discriminate.
Defined.

(** ** [fetch]: failures after the page was opened *)

(** X10. When [page.close()] is refused, the image has already been
    written to the bucket under the storage key of this capture, yet the
    call answers the 500 of a page-operation failure and arms no alarm. *)
Theorem close_failure_comes_after_the_store
    (request : Request) (env : Env) (s : State) (page : nat) :
  let r := Browser.fetch request env s in
  In (EvPageClose page false) (events r) ->
  outcome r = Returns (Response_json
                         (failure "Error during page operations") 500)
  /\ (exists userId sc,
        headers_get (req_headers request) "user-id" = Some userId
        /\ screenshot_result env = Some sc
        /\ bucket (final r)
             !! storage_key userId (generateId None (random_pick env))
           = Some sc)
  /\ alarms (final r) = alarms s.
Proof.
  cbv zeta. unfold_handlers. name_headers request.
  destruct s as [sb sk sa sm].
  repeat (simpl_state; split_match); simpl_state; simpl In;
    intros Hin;
    repeat match type of Hin with
           | _ \/ _ => destruct Hin as [Hin | Hin]; try discriminate Hin
           end;
    try contradiction.
  all: repeat match goal with
       | H : Boolean ?v = true |- _ =>
           apply Boolean_true_iff in H; destruct H as (? & -> & _)
       end.
  all: split; [reflexivity | split; [| reflexivity]].
  all: eexists; eexists; split; [reflexivity |]; split; [reflexivity |].
  all: cbn [str]; rewrite storage_key_eq; apply lookup_insert_eq.
Qed.

Lemma close_failure_comes_after_the_store_witness :
  let env :=
    {| URL_href := sample_URL_href; Date_now := 1000000;
       random_pick := fun i => (i * 7)%nat;
       launch_result := Some 1%nat;
       newPage_ok := true; setViewport_ok := true; goto_ok := true;
       screenshot_result := Some sample_image;
       page_close_ok := false; browser_close_ok := true; put_ok := true;
       auth_userId := Some "user_42";
       signInUrl := "https://clipster.dev/sign-in";
       BUCKET_ORIGIN := "https://r2.clipster.dev";
       alarm_retry := false |} in
  let request := capture_request "https://example.com/" "user_42" in
  let r := Browser.fetch request env constructed in
  outcome r = Returns (Response_json
                         (failure "Error during page operations") 500)
  /\ (exists userId sc,
        headers_get (req_headers request) "user-id" = Some userId
        /\ screenshot_result env = Some sc
        /\ bucket (final r)
             !! storage_key userId (generateId None (random_pick env))
           = Some sc)
  /\ alarms (final r) = alarms constructed.
Proof.
  apply (close_failure_comes_after_the_store
           (capture_request "https://example.com/" "user_42")
           {| URL_href := sample_URL_href; Date_now := 1000000;
              random_pick := fun i => (i * 7)%nat;
              launch_result := Some 1%nat;
              newPage_ok := true; setViewport_ok := true; goto_ok := true;
              screenshot_result := Some sample_image;
              page_close_ok := false; browser_close_ok := true;
              put_ok := true;
              auth_userId := Some "user_42";
              signInUrl := "https://clipster.dev/sign-in";
              BUCKET_ORIGIN := "https://r2.clipster.dev";
              alarm_retry := false |}
           constructed 0%nat).
  vm_compute. tauto.
Defined.

(** X11. Whenever a page operation before [close()] is refused, the page
    that [fetch] opened is never closed and is still among the open pages
    of the browser when the call returns its 500. *)
Theorem page_stays_open_when_an_operation_fails
    (request : Request) (env : Env) (s : State) (bid page : nat) :
  let r := Browser.fetch request env s in
  In (EvNewPage bid (Some page)) (events r) ->
  setViewport_ok env = false \/ goto_ok env = false
  \/ screenshot_result env = None \/ put_ok env = false ->
  outcome r = Returns (Response_json
                         (failure "Error during page operations") 500)
  /\ count (is_page_close page) (events r) = 0%nat
  /\ exists b, browser (final r) = Some b /\ In page (open_pages b).
Proof.
  cbv zeta. unfold_handlers. name_headers request.
  destruct s as [sb sk sa sm].
  repeat (simpl_state; split_match); simpl_state; simpl In;
    intros Hin Hfail;
    repeat match type of Hin with
           | _ \/ _ => destruct Hin as [Hin | Hin]; try discriminate Hin
           end;
    try contradiction;
    try (exfalso; intuition congruence).
  all: injection Hin as <- <-.
  all: split; [reflexivity | split; [reflexivity |]].
  all: eexists; split; [reflexivity |]; simpl; auto.
Qed.

Lemma page_stays_open_when_an_operation_fails_witness :
  let r := Browser.fetch (capture_request "https://example.com/" "user_42")
             env_goto_fails constructed in
  outcome r = Returns (Response_json
                         (failure "Error during page operations") 500)
  /\ count (is_page_close 0) (events r) = 0%nat
  /\ exists b, browser (final r) = Some b /\ In 0%nat (open_pages b).
Proof.
  apply (page_stays_open_when_an_operation_fails
           (capture_request "https://example.com/" "user_42")
           env_goto_fails constructed 1%nat 0%nat).
  - vm_compute. tauto.
  - right. left. reflexivity.
Defined.

(** ** [fetch]: the alarm and the counter after a call *)

(** X12. A call that answers 200 leaves the idle counter at zero and an
    alarm pending: the one that was pending, or a new one due ten seconds
    from now.  Any other end of the call, a failure response or an
    exception, leaves the alarms as they were. *)
Theorem alarm_is_armed_on_success_only
    (request : Request) (env : Env) (s : State) :
  let r := Browser.fetch request env s in
  (forall resp,
     outcome r = Returns resp -> status resp = 200 ->
     keptAliveInSeconds (final r) = 0
     /\ alarms (final r) <> []
     /\ (alarms s = [] -> alarms (final r) = [Date_now env + 10000]))
  /\ ((forall resp, outcome r = Returns resp -> status resp <> 200) ->
      alarms (final r) = alarms s
      /\ count is_setAlarm (events r) = 0%nat).
Proof.
  cbv zeta. unfold_handlers. name_headers request.
  destruct s as [sb sk sa sm].
  repeat (simpl_state; split_match); simpl_state.
  all: split;
    [ intros resp Hout Hst; try discriminate Hout; injection Hout as <-;
      try discriminate Hst
    | intros Hno; try (split; reflexivity);
      exfalso; eapply Hno; reflexivity ].
  all: destruct sa; try discriminate; repeat split; congruence.
Qed.

Lemma alarm_is_armed_on_success_only_witness :
  let r := Browser.fetch (capture_request "https://example.com/" "user_42")
             env_ok constructed in
  keptAliveInSeconds (final r) = 0
  /\ alarms (final r) <> []
  /\ (alarms constructed = [] ->
      alarms (final r) = [Date_now env_ok + 10000]).
Proof.
  apply (proj1 (alarm_is_armed_on_success_only
                  (capture_request "https://example.com/" "user_42")
                  env_ok constructed)
           (Response_json
              [("success", JBool true); ("key", JStr "O18elsz")] 200)).
  - vm_compute. reflexivity.
  - reflexivity.
Defined.

(** X13. A browser that [fetch] launches on a session with no alarm
    pending, and whose capture then fails, is left without an idle timer:
    it is connected, no alarm is pending, and so no tick ever fires to
    tear it down. *)
Theorem failed_first_capture_leaves_browser_unwatched
    (request : Request) (env : Env) (s : State) (resp : Response)
    (id : nat) (envs : list Env) :
  let r := Browser.fetch request env s in
  alarms s = [] ->
  In (EvLaunch (Some id)) (events r) ->
  outcome r = Returns resp -> status resp = 500 ->
  (exists b, browser (final r) = Some b
             /\ browser_id b = id /\ connected b = true)
  /\ alarms (final r) = []
  /\ exec (List.map Alarm envs) (final r) [] = (final r, []).
Proof.
  cbv zeta. intros Hnone Hlaunch Hout Hst.
  assert (Hb : exists b, browser (final (Browser.fetch request env s)) = Some b
                         /\ browser_id b = id /\ connected b = true).
  { revert Hlaunch Hout Hst. clear Hnone.
    unfold_handlers. name_headers request.
    destruct s as [sb sk sa sm].
    repeat (simpl_state; split_match); simpl_state; simpl In;
      intros Hin Hout Hst;
      repeat match type of Hin with
             | _ \/ _ => destruct Hin as [Hin | Hin]; try discriminate Hin
             end;
      try contradiction;
      try discriminate Hout; injection Hout as <-; try discriminate Hst.
    all: injection Hin as ->; eexists; repeat split. }
  assert (Ha : alarms (final (Browser.fetch request env s)) = []).
  { destruct (fetch_alarms request env s) as [[Ha _] | (_ & Ha & Hc)].
    - now rewrite Ha.
    - exfalso. revert Hout Hst Hc. clear.
      unfold_handlers. name_headers request.
      destruct s as [sb sk sa sm].
      repeat (simpl_state; split_match); simpl_state;
        intros Hout Hst; try discriminate Hout; injection Hout as <-;
        try discriminate Hst; discriminate. }
  split; [exact Hb | split; [exact Ha |]].
  now apply exec_alarms_none_pending.
Qed.

Lemma failed_first_capture_leaves_browser_unwatched_witness :
  let r := Browser.fetch (capture_request "https://example.com/" "user_42")
             env_goto_fails constructed in
  (exists b, browser (final r) = Some b
             /\ browser_id b = 1%nat /\ connected b = true)
  /\ alarms (final r) = []
  /\ exec (List.map Alarm (repeat env_ok 6)) (final r) [] = (final r, []).
Proof.
  apply (failed_first_capture_leaves_browser_unwatched
           (capture_request "https://example.com/" "user_42")
           env_goto_fails constructed
           (Response_json (failure "Error during page operations") 500)
           1%nat (repeat env_ok 6)).
  - reflexivity.
  - vm_compute. tauto.
  - vm_compute. reflexivity.
  - reflexivity.
Defined.

(** X14. A valid request that finds a disconnected browser behind the
    field launches a new one; when the launch is granted the field refers
    to the new browser, connected, and the counter is back at zero.  The
    browser that was replaced is not closed. *)
Theorem disconnected_browser_is_replaced
    (request : Request) (env : Env) (s : State) (b : PBrowser) (id : nat) :
  let r := Browser.fetch request env s in
  falsy (headers_get (req_headers request) "url") = false ->
  falsy (headers_get (req_headers request) "user-id") = false ->
  URL_href env (str (headers_get (req_headers request) "url")) <> None ->
  browser s = Some b -> connected b = false ->
  launch_result env = Some id ->
  (exists b', browser (final r) = Some b'
              /\ browser_id b' = id /\ connected b' = true)
  /\ keptAliveInSeconds (final r) = 0
  /\ count is_launch (events r) = 1%nat
  /\ count is_browser_close (events r) = 0%nat.
Proof.
  cbv zeta. unfold falsy. unfold_handlers. name_headers request.
  intros Hurl Hid Hparse Hb Hconn Hlaunch.
  destruct s as [sb sk sa sm]. simpl in Hb. subst sb.
  destruct b as [bid bc bp bn]. simpl in Hconn. subst bc.
  apply negb_false_iff in Hurl, Hid. rewrite Hurl, Hid.
  destruct (URL_href env (str urlHeader)) as [href|];
    [| now contradiction Hparse].
  simpl_state. rewrite Hlaunch.
  repeat (simpl_state; split_match); simpl_state.
  all: repeat split; eauto.
Qed.

Lemma disconnected_browser_is_replaced_witness :
  let s := fst (run (Fetch (capture_request "https://example.com/" "user_42")
                       env_ok :: repeat (Alarm env_ok) 6)) in
  let r := Browser.fetch (capture_request "https://example.org/" "user_7")
             env_ok s in
  (exists b', browser (final r) = Some b'
              /\ browser_id b' = 1%nat /\ connected b' = true)
  /\ keptAliveInSeconds (final r) = 0
  /\ count is_launch (events r) = 1%nat
  /\ count is_browser_close (events r) = 0%nat.
Proof.
  apply (disconnected_browser_is_replaced
           (capture_request "https://example.org/" "user_7") env_ok
           (fst (run (Fetch (capture_request "https://example.com/"
                               "user_42") env_ok
                      :: repeat (Alarm env_ok) 6)))
           (closed {| browser_id := 1; connected := true;
                      open_pages := []; pages_created := 1 |})
           1%nat).
  - reflexivity.
  - reflexivity.
  - vm_compute. discriminate.
  - vm_compute. reflexivity.
  - reflexivity.
  - reflexivity.
Defined.

(** ** The idle counter over the runs of the session *)

Lemma exec_preserves_under (P : Action -> Prop) (I : State -> Prop) :
  (forall a s, P a -> I s -> I (fst (step a s))) ->
  forall actions s h,
    Forall P actions -> I s -> I (fst (exec actions s h)).
Proof.
  intros Hstep actions.
  induction actions as [|a actions IH]; intros s h HP HI; [exact HI |].
  apply Forall_cons_iff in HP as [Ha HP]. simpl.
  specialize (Hstep a s Ha HI). destruct (step a s) as [s1 evs].
  now apply IH.
Qed.

(** [fetch] resets the counter or leaves counter and alarms alone. *)
Lemma fetch_counter (request : Request) (env : Env) (s : State) :
  let r := Browser.fetch request env s in
  keptAliveInSeconds (final r) = 0
  \/ (keptAliveInSeconds (final r) = keptAliveInSeconds s
      /\ alarms (final r) = alarms s).
Proof.
  cbv zeta. unfold_handlers. name_headers request.
  destruct s as [sb sk sa sm].
  repeat (simpl_state; split_match); simpl_state; auto.
Qed.

(** [alarm] adds ten to the counter; it arms an alarm exactly below the
    threshold, and raises only when [close()] is refused. *)
Lemma alarm_counter (env : Env) (s : State) :
  let r := Browser.alarm env s in
  keptAliveInSeconds (final r) = keptAliveInSeconds s + 10
  /\ ((keptAliveInSeconds s + 10 < KEEP_BROWSER_ALIVE_IN_SECONDS
       /\ outcome r = Returns tt
       /\ alarms (final r) = Date_now env + 10 * 1000 :: alarms s)
      \/ (KEEP_BROWSER_ALIVE_IN_SECONDS <= keptAliveInSeconds s + 10
          /\ alarms (final r) = alarms s
          /\ (outcome r = Returns tt \/ browser_close_ok env = false))).
Proof.
  cbv zeta.
  destruct (Z.lt_ge_cases (keptAliveInSeconds s + 10)
              KEEP_BROWSER_ALIVE_IN_SECONDS) as [Hk | Hk].
  - destruct (alarm_below_threshold env s Hk) as (Hout & Hfin & _).
    rewrite Hout, Hfin. simpl. split; [reflexivity |]. left. auto.
  - destruct (browser s) as [b|] eqn:Hb.
    + destruct (alarm_at_threshold env s b Hk Hb) as [_ Hr].
      destruct (browser_close_ok env); destruct Hr as [Hout Hfin];
        rewrite Hout, Hfin; simpl; split; auto; right; auto.
    + destruct (alarm_at_threshold_without_browser env s Hk Hb)
        as (Hout & Hfin & _).
      rewrite Hout, Hfin. simpl. split; [reflexivity |]. right. auto.
Qed.

Lemma step_counter_in_range (a : Action) (s : State) :
  no_alarm_retry a -> counter_in_range s -> counter_in_range (fst (step a s)).
Proof.
  unfold counter_in_range, KEEP_BROWSER_ALIVE_IN_SECONDS.
  intros Ha (Hrange & Hmod & Hpending & Hone).
  assert (Hone' := step_at_most_one_alarm a s Hone).
  destruct a as [request env | env |]; simpl in *.
  - destruct (fetch_counter request env s) as [-> | [-> ->]].
    + repeat split; try lia; trivial.
    + repeat split; try lia; trivial.
  - unfold fire_alarm in *.
    destruct (alarms s) as [|t pending] eqn:Ht; simpl in *.
    + rewrite Ht. repeat split; try lia; trivial.
    + assert (pending = []) by (destruct pending; [reflexivity | simpl in Hone; lia]).
      subst pending.
      specialize (Hpending ltac:(discriminate)).
      assert (Hk : keptAliveInSeconds s <= 50).
      { pose proof (Z.div_mod (keptAliveInSeconds s) 10 ltac:(lia)). lia. }
      destruct (alarm_counter env (set_alarms [] s))
        as (Hk1 & [(Hlt & Hout & Hal) | (Hge & Hal & Hout)]);
        cbn [keptAliveInSeconds alarms set_alarms] in *.
      * rewrite Hout in *. simpl in *. rewrite Hk1, Hal.
        repeat split; try lia; trivial.
        rewrite <- Zplus_mod_idemp_l, Hmod. reflexivity.
      * assert (Hfin : forall s1,
                  keptAliveInSeconds s1 = keptAliveInSeconds s + 10 ->
                  alarms s1 = [] ->
                  (0 <= keptAliveInSeconds s1 <= 60
                   /\ keptAliveInSeconds s1 mod 10 = 0
                   /\ (alarms s1 <> [] -> keptAliveInSeconds s1 < 60)
                   /\ (length (alarms s1) <= 1)%nat)).
        { intros s1 H1 H2. rewrite H1, H2. repeat split; try lia.
          all: try (rewrite <- Zplus_mod_idemp_l, Hmod; reflexivity).
          all: try (intros Hne; now contradiction Hne).
          all: try (simpl; lia). }
        destruct (outcome (Browser.alarm env (set_alarms [] s))) eqn:Ho.
        -- simpl. apply Hfin; assumption.
        -- destruct Hout as [Hout | Hclose]; [discriminate Hout |].
           destruct Ha as [Ha | Ha]; [congruence |].
           rewrite Ha. simpl. apply Hfin; assumption.
  - unfold disconnect. destruct (browser s); simpl; repeat split; trivial; lia.
Qed.

(** X15. In every state the session reaches, the idle counter is a
    multiple of ten between zero and the threshold of sixty, it is below
    the threshold while an alarm is pending, and at most one alarm is
    pending; provided the platform does not run an alarm handler again
    after it raised. *)
Theorem idle_counter_stays_in_range (actions : list Action) :
  Forall no_alarm_retry actions ->
  let s := fst (run actions) in
  0 <= keptAliveInSeconds s <= KEEP_BROWSER_ALIVE_IN_SECONDS
  /\ keptAliveInSeconds s mod 10 = 0
  /\ (alarms s <> [] -> keptAliveInSeconds s < KEEP_BROWSER_ALIVE_IN_SECONDS).
Proof.
  intros Hno. cbv zeta. unfold run.
  assert (H : counter_in_range (fst (exec actions constructed []))).
  { apply (exec_preserves_under no_alarm_retry counter_in_range).
    - apply step_counter_in_range.
    - exact Hno.
    - unfold counter_in_range, KEEP_BROWSER_ALIVE_IN_SECONDS. simpl.
      repeat split; try lia; try reflexivity; try discriminate.
      all: try (intros H; now contradiction H). }
  destruct H as (H1 & H2 & H3 & _). auto.
Qed.

Lemma idle_counter_stays_in_range_witness :
  let s := fst (run (Fetch (capture_request "https://example.com/" "user_42")
                       env_ok :: repeat (Alarm env_ok) 7)) in
  0 <= keptAliveInSeconds s <= KEEP_BROWSER_ALIVE_IN_SECONDS
  /\ keptAliveInSeconds s mod 10 = 0
  /\ (alarms s <> [] -> keptAliveInSeconds s < KEEP_BROWSER_ALIVE_IN_SECONDS).
Proof.
  apply (idle_counter_stays_in_range
           (Fetch (capture_request "https://example.com/" "user_42") env_ok
            :: repeat (Alarm env_ok) 7)).
  repeat constructor.
Defined.

(** ** [generateId] with a suffix *)

Lemma length_append (a b : string) :
  String.length (a +:+ b) = (String.length a + String.length b)%nat.
Proof.
  induction a as [|c a IH]; [reflexivity |].
  change (String c a +:+ b) with (String c (a +:+ b)). simpl. now rewrite IH.
Qed.

Lemma append_empty_r (a : string) : a +:+ "" = a.
Proof.
  induction a as [|c a IH]; [reflexivity |].
  change (String c a +:+ "") with (String c (a +:+ "")). now rewrite IH.
Qed.

(** X16. For every suffix, the empty one included (which JavaScript takes
    for absent), [generateId(suffix)] is what [generateId()] makes of the
    same random draws, followed by the suffix: the marker [O], six
    alphanumeric characters and the suffix, [7 + |suffix|] characters. *)
Theorem generateId_appends_the_suffix (suffix : string) (pick : nat -> nat) :
  generateId (Some suffix) pick = generateId None pick +:+ suffix
  /\ String.length (generateId (Some suffix) pick)
     = (7 + String.length suffix)%nat
  /\ exists token,
       generateId (Some suffix) pick = "O" +:+ token +:+ suffix
       /\ String.length token = 6%nat
       /\ Forall (fun c => is_alphanumeric c = true)
            (list_ascii_of_string token).
Proof.
  destruct (generateId_shape pick) as (token & Hgen & Hlen & Hall).
  assert (Heq : generateId (Some suffix) pick
                = generateId None pick +:+ suffix).
  { unfold generateId. destruct suffix as [|c suffix]; simpl Boolean;
      cbv iota; simpl str.
    - now rewrite !append_empty_r.
    - rewrite append_empty_r.
      change ("O" +:+ ?x) with (String "O" x).
      reflexivity. }
  split; [exact Heq |]. split.
  - rewrite Heq, Hgen, length_append.
    change ("O" +:+ token) with (String "O" token). simpl. now rewrite Hlen.
  - exists token. split; [| split; assumption].
    rewrite Heq, Hgen. reflexivity.
Qed.

(** ** [btoa] tells the user ids apart *)

Lemma N_below_in_range (k : nat) (n : N) :
  (n < N.of_nat k)%N -> In n (List.map N.of_nat (List.seq 0 k)).
Proof.
  intros H. apply List.in_map_iff. exists (N.to_nat n).
  split; [apply N2Nat.id |]. apply List.in_seq. lia.
Qed.

(** A check that holds of every number below [k] by evaluation. *)
Lemma forall_below (k : nat) (P : N -> bool) :
  List.forallb P (List.map N.of_nat (List.seq 0 k)) = true ->
  forall n, (n < N.of_nat k)%N -> P n = true.
Proof.
  intros H n Hn. rewrite List.forallb_forall in H.
  apply H. now apply N_below_in_range.
Qed.

Lemma forall_below2 (k1 k2 : nat) (P : N -> N -> bool) :
  List.forallb
    (fun x => List.forallb (P x) (List.map N.of_nat (List.seq 0 k2)))
    (List.map N.of_nat (List.seq 0 k1)) = true ->
  forall x y, (x < N.of_nat k1)%N -> (y < N.of_nat k2)%N -> P x y = true.
Proof.
  intros H x y Hx Hy.
  apply (forall_below k2 (P x)); [| exact Hy].
  now apply (forall_below k1
               (fun x => List.forallb (P x)
                           (List.map N.of_nat (List.seq 0 k2)))).
Qed.

(** The 64 digits are distinct, and none is the padding character. *)
Lemma base64_digit_inj (n m : N) :
  (n < 64)%N -> (m < 64)%N -> base64_digit n = base64_digit m -> n = m.
Proof.
  intros Hn Hm Heq.
  pose proof (forall_below2 64 64
                (fun x y => implb (Ascii.eqb (base64_digit x) (base64_digit y))
                              (x =? y)%N)
                ltac:(vm_compute; reflexivity) n m Hn Hm) as H.
  cbv beta in H. rewrite Heq, Ascii.eqb_refl in H. now apply N.eqb_eq.
Qed.

Lemma base64_digit_not_padding (n : N) :
  (n < 64)%N -> base64_digit n <> "="%char.
Proof.
  intros Hn Heq.
  pose proof (forall_below 64
                (fun x => negb (Ascii.eqb (base64_digit x) "="))
                ltac:(vm_compute; reflexivity) n Hn) as H.
  cbv beta in H. rewrite Heq in H. discriminate H.
Qed.

(** How a byte splits into the bit fields the encoder takes from it, and
    is put together from them again. *)
Lemma byte_fields (a : N) :
  (a < 256)%N ->
  (N.shiftr a 2 < 64 /\ N.land a 3 < 4
   /\ N.lor (N.shiftl (N.shiftr a 2) 2) (N.land a 3) = a)%N
  /\ (N.shiftr a 4 < 16 /\ N.land a 15 < 16
      /\ N.lor (N.shiftl (N.shiftr a 4) 4) (N.land a 15) = a)%N
  /\ (N.shiftr a 6 < 4 /\ N.land a 63 < 64
      /\ N.lor (N.shiftl (N.shiftr a 6) 6) (N.land a 63) = a)%N.
Proof.
  intros Ha.
  pose proof (forall_below 256
                (fun a =>
                   (N.shiftr a 2 <? 64) && (N.land a 3 <? 4)
                   && (N.lor (N.shiftl (N.shiftr a 2) 2) (N.land a 3) =? a)
                   && (N.shiftr a 4 <? 16) && (N.land a 15 <? 16)
                   && (N.lor (N.shiftl (N.shiftr a 4) 4) (N.land a 15) =? a)
                   && (N.shiftr a 6 <? 4) && (N.land a 63 <? 64)
                   && (N.lor (N.shiftl (N.shiftr a 6) 6) (N.land a 63) =? a))%N
                ltac:(vm_compute; reflexivity) a Ha) as H.
  cbv beta in H.
  repeat (apply andb_true_iff in H; destruct H as [H ?]).
  repeat match goal with
         | H : (_ <? _)%N = true |- _ => apply N.ltb_lt in H
         | H : (_ =? _)%N = true |- _ => apply N.eqb_eq in H
         end.
  repeat split; assumption.
Qed.

(** Two bit fields joined into one digit can be read back. *)
Lemma join_2_4 (x y : N) :
  (x < 4)%N -> (y < 16)%N ->
  (N.lor (N.shiftl x 4) y < 64
   /\ N.shiftr (N.lor (N.shiftl x 4) y) 4 = x
   /\ N.land (N.lor (N.shiftl x 4) y) 15 = y)%N.
Proof.
  intros Hx Hy.
  pose proof (forall_below2 4 16
                (fun x y =>
                   (N.lor (N.shiftl x 4) y <? 64)
                   && (N.shiftr (N.lor (N.shiftl x 4) y) 4 =? x)
                   && (N.land (N.lor (N.shiftl x 4) y) 15 =? y))%N
                ltac:(vm_compute; reflexivity) x y Hx Hy) as H.
  cbv beta in H.
  repeat (apply andb_true_iff in H; destruct H as [H ?]).
  repeat match goal with
         | H : (_ <? _)%N = true |- _ => apply N.ltb_lt in H
         | H : (_ =? _)%N = true |- _ => apply N.eqb_eq in H
         end.
  repeat split; assumption.
Qed.

Lemma join_4_2 (x y : N) :
  (x < 16)%N -> (y < 4)%N ->
  (N.lor (N.shiftl x 2) y < 64
   /\ N.shiftr (N.lor (N.shiftl x 2) y) 2 = x
   /\ N.land (N.lor (N.shiftl x 2) y) 3 = y)%N.
Proof.
  intros Hx Hy.
  pose proof (forall_below2 16 4
                (fun x y =>
                   (N.lor (N.shiftl x 2) y <? 64)
                   && (N.shiftr (N.lor (N.shiftl x 2) y) 2 =? x)
                   && (N.land (N.lor (N.shiftl x 2) y) 3 =? y))%N
                ltac:(vm_compute; reflexivity) x y Hx Hy) as H.
  cbv beta in H.
  repeat (apply andb_true_iff in H; destruct H as [H ?]).
  repeat match goal with
         | H : (_ <? _)%N = true |- _ => apply N.ltb_lt in H
         | H : (_ =? _)%N = true |- _ => apply N.eqb_eq in H
         end.
  repeat split; assumption.
Qed.

Lemma first_byte_inj (a a' y y' : N) :
  (a < 256)%N -> (a' < 256)%N -> (y < 16)%N -> (y' < 16)%N ->
  N.shiftr a 2 = N.shiftr a' 2 ->
  N.lor (N.shiftl (N.land a 3) 4) y = N.lor (N.shiftl (N.land a' 3) 4) y' ->
  a = a' /\ y = y'.
Proof.
  intros Ha Ha' Hy Hy' H1 H2.
  destruct (byte_fields a Ha) as ((_ & Hlo & Hjoin) & _).
  destruct (byte_fields a' Ha') as ((_ & Hlo' & Hjoin') & _).
  destruct (join_2_4 _ _ Hlo Hy) as (_ & Hx & Hyy).
  destruct (join_2_4 _ _ Hlo' Hy') as (_ & Hx' & Hyy').
  rewrite H2 in Hx, Hyy. split; [| congruence].
  rewrite <- Hjoin, <- Hjoin'. congruence.
Qed.

Lemma second_byte_inj (b b' z z' : N) :
  (b < 256)%N -> (b' < 256)%N -> (z < 4)%N -> (z' < 4)%N ->
  N.shiftr b 4 = N.shiftr b' 4 ->
  N.lor (N.shiftl (N.land b 15) 2) z = N.lor (N.shiftl (N.land b' 15) 2) z' ->
  b = b' /\ z = z'.
Proof.
  intros Hb Hb' Hz Hz' H1 H2.
  destruct (byte_fields b Hb) as (_ & (_ & Hlo & Hjoin) & _).
  destruct (byte_fields b' Hb') as (_ & (_ & Hlo' & Hjoin') & _).
  destruct (join_4_2 _ _ Hlo Hz) as (_ & Hx & Hzz).
  destruct (join_4_2 _ _ Hlo' Hz') as (_ & Hx' & Hzz').
  rewrite H2 in Hx, Hzz. split; [| congruence].
  rewrite <- Hjoin, <- Hjoin'. congruence.
Qed.

Lemma third_byte_inj (c c' : N) :
  (c < 256)%N -> (c' < 256)%N ->
  N.shiftr c 6 = N.shiftr c' 6 -> N.land c 63 = N.land c' 63 -> c = c'.
Proof.
  intros Hc Hc' H1 H2.
  destruct (byte_fields c Hc) as (_ & _ & (_ & _ & Hjoin)).
  destruct (byte_fields c' Hc') as (_ & _ & (_ & _ & Hjoin')).
  rewrite <- Hjoin, <- Hjoin'. congruence.
Qed.

Lemma sextet1_bound (a : N) : (a < 256)%N -> (N.shiftr a 2 < 64)%N.
Proof. intros Ha. apply (byte_fields a Ha). Qed.

Lemma sextet2_bound (a b : N) :
  (a < 256)%N -> (b < 256)%N ->
  (N.lor (N.shiftl (N.land a 3) 4) (N.shiftr b 4) < 64)%N.
Proof.
  intros Ha Hb.
  destruct (byte_fields a Ha) as ((_ & Hlo & _) & _).
  destruct (byte_fields b Hb) as (_ & (Hhi & _) & _).
  apply (join_2_4 _ _ Hlo Hhi).
Qed.

Lemma sextet2_last_bound (a : N) :
  (a < 256)%N -> (N.shiftl (N.land a 3) 4 < 64)%N.
Proof.
  intros Ha. destruct (byte_fields a Ha) as ((_ & Hlo & _) & _).
  rewrite <- (N.lor_0_r (N.shiftl (N.land a 3) 4)).
  apply (join_2_4 _ 0%N Hlo). lia.
Qed.

Lemma sextet3_bound (b c : N) :
  (b < 256)%N -> (c < 256)%N ->
  (N.lor (N.shiftl (N.land b 15) 2) (N.shiftr c 6) < 64)%N.
Proof.
  intros Hb Hc.
  destruct (byte_fields b Hb) as (_ & (_ & Hlo & _) & _).
  destruct (byte_fields c Hc) as (_ & _ & (Hhi & _)).
  apply (join_4_2 _ _ Hlo Hhi).
Qed.

Lemma sextet3_last_bound (b : N) :
  (b < 256)%N -> (N.shiftl (N.land b 15) 2 < 64)%N.
Proof.
  intros Hb. destruct (byte_fields b Hb) as (_ & (_ & Hlo & _) & _).
  rewrite <- (N.lor_0_r (N.shiftl (N.land b 15) 2)).
  apply (join_4_2 _ 0%N Hlo). lia.
Qed.

Lemma sextet4_bound (c : N) : (c < 256)%N -> (N.land c 63 < 64)%N.
Proof. intros Hc. apply (byte_fields c Hc). Qed.

Create HintDb b64.
#[local] Hint Resolve sextet1_bound sextet2_bound sextet2_last_bound
  sextet3_bound sextet3_last_bound sextet4_bound : b64.

Lemma list_ind3 {A : Type} (P : list A -> Prop) :
  P [] -> (forall a, P [a]) -> (forall a b, P [a; b]) ->
  (forall a b c l, P l -> P (a :: b :: c :: l)) ->
  forall l, P l.
Proof.
  intros H0 H1 H2 H3. fix IH 1.
  intros [|a [|b [|c l]]];
    [exact H0 | apply H1 | apply H2 | apply H3; apply IH].
Qed.

Ltac string_eq :=
  repeat match goal with
         | H : String _ _ = String _ _ |- _ => injection H; clear H; intros
         | H : String _ _ = EmptyString |- _ => discriminate H
         | H : EmptyString = String _ _ |- _ => discriminate H
         end.

Ltac padding_clash :=
  match goal with
  | H : "="%char = base64_digit _ |- _ =>
      symmetry in H; apply base64_digit_not_padding in H;
      [contradiction | solve [auto with b64]]
  | H : base64_digit _ = "="%char |- _ =>
      apply base64_digit_not_padding in H;
      [contradiction | solve [auto with b64]]
  end.

Ltac digits_eq :=
  repeat match goal with
         | H : base64_digit _ = base64_digit _ |- _ =>
             apply base64_digit_inj in H; [| solve [auto with b64] ..]
         end.

Lemma chunk1_inj (a a' : N) :
  (a < 256)%N -> (a' < 256)%N ->
  N.shiftr a 2 = N.shiftr a' 2 ->
  N.shiftl (N.land a 3) 4 = N.shiftl (N.land a' 3) 4 ->
  a = a'.
Proof.
  intros Ha Ha' H1 H2.
  apply (first_byte_inj a a' 0 0 Ha Ha' ltac:(lia) ltac:(lia) H1).
  now rewrite !N.lor_0_r.
Qed.

Lemma chunk2_inj (a b a' b' : N) :
  (a < 256)%N -> (b < 256)%N -> (a' < 256)%N -> (b' < 256)%N ->
  N.shiftr a 2 = N.shiftr a' 2 ->
  N.lor (N.shiftl (N.land a 3) 4) (N.shiftr b 4)
  = N.lor (N.shiftl (N.land a' 3) 4) (N.shiftr b' 4) ->
  N.shiftl (N.land b 15) 2 = N.shiftl (N.land b' 15) 2 ->
  a = a' /\ b = b'.
Proof.
  intros Ha Hb Ha' Hb' H1 H2 H3.
  destruct (byte_fields b Hb) as (_ & (Hhi & _) & _).
  destruct (byte_fields b' Hb') as (_ & (Hhi' & _) & _).
  destruct (first_byte_inj a a' _ _ Ha Ha' Hhi Hhi' H1 H2) as [Haa Hbb].
  split; [exact Haa |].
  apply (second_byte_inj b b' 0 0 Hb Hb' ltac:(lia) ltac:(lia) Hbb).
  now rewrite !N.lor_0_r.
Qed.

Lemma chunk3_inj (a b c a' b' c' : N) :
  (a < 256)%N -> (b < 256)%N -> (c < 256)%N ->
  (a' < 256)%N -> (b' < 256)%N -> (c' < 256)%N ->
  N.shiftr a 2 = N.shiftr a' 2 ->
  N.lor (N.shiftl (N.land a 3) 4) (N.shiftr b 4)
  = N.lor (N.shiftl (N.land a' 3) 4) (N.shiftr b' 4) ->
  N.lor (N.shiftl (N.land b 15) 2) (N.shiftr c 6)
  = N.lor (N.shiftl (N.land b' 15) 2) (N.shiftr c' 6) ->
  N.land c 63 = N.land c' 63 ->
  a = a' /\ b = b' /\ c = c'.
Proof.
  intros Ha Hb Hc Ha' Hb' Hc' H1 H2 H3 H4.
  destruct (byte_fields b Hb) as (_ & (Hhi & _) & _).
  destruct (byte_fields b' Hb') as (_ & (Hhi' & _) & _).
  destruct (byte_fields c Hc) as (_ & _ & (Htop & _)).
  destruct (byte_fields c' Hc') as (_ & _ & (Htop' & _)).
  destruct (first_byte_inj a a' _ _ Ha Ha' Hhi Hhi' H1 H2) as [Haa Hbb].
  destruct (second_byte_inj b b' _ _ Hb Hb' Htop Htop' Hbb H3) as [Hb2 Hcc].
  repeat split; try assumption.
  now apply third_byte_inj.
Qed.

(** The encoder is injective on byte strings. *)
Lemma base64_encode_inj (l1 : list N) :
  forall l2,
    Forall (fun n => (n < 256)%N) l1 -> Forall (fun n => (n < 256)%N) l2 ->
    base64_encode l1 = base64_encode l2 -> l1 = l2.
Proof.
  induction l1 as [|a|a b|a b c l1 IH] using list_ind3;
    intros [|a' [|b' [|c' l2]]] Hl1 Hl2 Heq;
    cbn [base64_encode] in Heq;
    repeat match goal with
           | H : Forall _ (_ :: _) |- _ =>
               apply Forall_cons_iff in H; destruct H as [? H]
           end;
    string_eq; try reflexivity; try padding_clash; digits_eq.
  - f_equal. now apply chunk1_inj.
  - destruct (chunk2_inj a b a' b') as [-> ->]; trivial.
  - destruct (chunk3_inj a b c a' b' c') as (-> & -> & ->); trivial.
    f_equal. f_equal. f_equal. now apply IH.
Qed.

(** [btoa] is injective: two user ids never share a folder. *)
Lemma btoa_inj (s1 s2 : string) : btoa s1 = btoa s2 -> s1 = s2.
Proof.
  unfold btoa, char_codes. intros Heq.
  apply base64_encode_inj in Heq.
  - rewrite <- (string_of_list_ascii_of_string s1),
            <- (string_of_list_ascii_of_string s2).
    f_equal.
    revert Heq. generalize (list_ascii_of_string s1) (list_ascii_of_string s2).
    intros l1. induction l1 as [|c l1 IH]; intros [|c' l2] H;
      try discriminate H; [reflexivity |].
    injection H as Hc Hl. f_equal; [| now apply IH].
    rewrite <- (ascii_N_embedding c), <- (ascii_N_embedding c').
    now rewrite Hc.
  - apply List.Forall_map, List.Forall_forall. intros c _.
    apply N_ascii_bounded.
  - apply List.Forall_map, List.Forall_forall. intros c _.
    apply N_ascii_bounded.
Qed.

Lemma list_ascii_of_string_append (a b : string) :
  list_ascii_of_string (a +:+ b)
  = (list_ascii_of_string a ++ list_ascii_of_string b)%list.
Proof.
  induction a as [|c a IH]; [reflexivity |].
  change (String c a +:+ b) with (String c (a +:+ b)). simpl. now rewrite IH.
Qed.

Lemma length_list_ascii_of_string (a : string) :
  length (list_ascii_of_string a) = String.length a.
Proof. induction a as [|c a IH]; simpl; [reflexivity | now rewrite IH]. Qed.

(** Two concatenations with tails of one length agree part by part. *)
Lemma append_inj_same_length (a1 a2 b1 b2 : string) :
  String.length b1 = String.length b2 ->
  a1 +:+ b1 = a2 +:+ b2 -> a1 = a2 /\ b1 = b2.
Proof.
  intros Hlen Heq.
  apply (f_equal list_ascii_of_string) in Heq.
  rewrite !list_ascii_of_string_append in Heq.
  apply app_inj_2 in Heq as [Ha Hb];
    [| now rewrite !length_list_ascii_of_string].
  apply (f_equal string_of_list_ascii) in Ha, Hb.
  rewrite !string_of_list_ascii_of_string in Ha, Hb. auto.
Qed.

Lemma append_inj_l (a b1 b2 : string) : a +:+ b1 = a +:+ b2 -> b1 = b2.
Proof.
  induction a as [|c a IH]; intros Heq; [exact Heq |].
  change (String c (a +:+ b1) = String c (a +:+ b2)) in Heq.
  injection Heq as Heq. now apply IH.
Qed.

Lemma storage_key_inj (userId1 userId2 captureId1 captureId2 : string) :
  String.length captureId1 = String.length captureId2 ->
  storage_key userId1 captureId1 = storage_key userId2 captureId2 ->
  userId1 = userId2 /\ captureId1 = captureId2.
Proof.
  unfold storage_key. intros Hlen Heq.
  apply append_inj_l in Heq.
  apply append_inj_same_length in Heq as [Hu Hc].
  - split; [now apply btoa_inj |].
    change (String "/" (captureId1 +:+ ".jpg")
            = String "/" (captureId2 +:+ ".jpg")) in Hc.
    injection Hc as Hc.
    now apply append_inj_same_length in Hc as [Hc _].
  - change ("/" +:+ ?x) with (String "/" x). simpl.
    now rewrite !length_append, Hlen.
Qed.

(** X17. The storage keys tell the captures apart: two captures are
    stored under the same key only if they belong to the same user id and
    drew the same capture id.  In particular the folders of two different
    user ids are different. *)
Theorem storage_keys_tell_captures_apart
    (userId1 userId2 : string) (pick1 pick2 : nat -> nat) :
  storage_key userId1 (generateId None pick1)
  = storage_key userId2 (generateId None pick2) ->
  userId1 = userId2 /\ generateId None pick1 = generateId None pick2.
Proof.
  intros Heq. apply storage_key_inj in Heq; [exact Heq |].
  destruct (generateId_shape pick1) as (t1 & -> & Hl1 & _).
  destruct (generateId_shape pick2) as (t2 & -> & Hl2 & _).
  change ("O" +:+ ?x) with (String "O" x). simpl. now rewrite Hl1, Hl2.
Qed.

Lemma storage_keys_tell_captures_apart_witness :
  "user_42" = "user_42"
  /\ generateId None (fun i => i * 7)%nat
     = generateId None (fun i => i * 7 + 62)%nat.
Proof.
  apply (storage_keys_tell_captures_apart "user_42" "user_42"
           (fun i => i * 7)%nat (fun i => i * 7 + 62)%nat).
  vm_compute. reflexivity.
Defined.

(** ** The second class: keys and validation *)

Lemma storage_key2_eq (userId href : string) :
  ("captures/" +:+ "user-" +:+ btoa userId) +:+ "/"
    +:+ (href +:+ "_" +:+ pretty 1920 +:+ "x" +:+ pretty 1080) +:+ ".jpg"
  = storage_key2 userId href.
Proof.
  unfold storage_key2.
  replace (pretty 1920) with "1920" by (vm_compute; reflexivity).
  replace (pretty 1080) with "1080" by (vm_compute; reflexivity).
  rewrite !append_assoc. reflexivity.
Qed.

(** A success of the second class: one key, made of the user id and the
    URL, under which the image is in the bucket. *)
Lemma Browser2_success
    (request : Request) (env : Env) (s : State) (resp : Response) :
  let r := Browser2.fetch request env s in
  outcome r = Returns resp -> status resp = 200 ->
  exists userId href sc,
    headers_get (req_headers request) "user-id" = Some userId
    /\ URL_href env (url_or_default request) = Some href
    /\ screenshot_result env = Some sc
    /\ resp = Response_json
                [("sucess", JBool true);
                 ("captureKey", JArr [storage_key2 userId href])] 200
    /\ bucket (final r) = <[storage_key2 userId href := sc]> (bucket s).
Proof.
  cbv zeta. unfold url_or_default. unfold_handlers. name_headers request.
  clear fullPage. destruct s as [sb sk sa sm].
  repeat (simpl_state; split_match); simpl_state;
    intros Hout Hst; try discriminate Hout;
    injection Hout as <-; try discriminate Hst.
  all: repeat match goal with
       | H : Boolean ?v = true |- _ =>
           apply Boolean_true_iff in H; destruct H as (? & -> & _)
       end.
  all: cbn [str]; rewrite !storage_key2_eq.
  all: eexists; eexists; eexists; repeat split; reflexivity.
Qed.

(** X18. A success of the second class carries the storage key: the one
    key of its [captureKey] array is
    [captures/user-{base64(userId)}/{href}_1920x1080.jpg], the image is in
    the bucket under that key, and every other object is as it was. *)
Theorem Browser2_success_carries_the_storage_key
    (request : Request) (env : Env) (s : State) (resp : Response) :
  let r := Browser2.fetch request env s in
  outcome r = Returns resp -> status resp = 200 ->
  exists userId href sc,
    headers_get (req_headers request) "user-id" = Some userId
    /\ URL_href env (url_or_default request) = Some href
    /\ screenshot_result env = Some sc
    /\ body resp = BodyJson [("sucess", JBool true);
                             ("captureKey", JArr [storage_key2 userId href])]
    /\ bucket (final r) !! storage_key2 userId href = Some sc
    /\ forall k, k <> storage_key2 userId href ->
                 bucket (final r) !! k = bucket s !! k.
Proof.
  cbv zeta. intros Hout Hst.
  destruct (Browser2_success request env s resp Hout Hst)
    as (userId & href & sc & Hid & Hurl & Hsc & -> & Hb).
  exists userId, href, sc. rewrite Hb.
  repeat split; try assumption.
  - apply lookup_insert_eq.
  - intros k Hk. apply lookup_insert_ne. congruence.
Qed.

Lemma Browser2_success_carries_the_storage_key_witness :
  let request := capture_request "https://example.com/" "user_42" in
  let r := Browser2.fetch request env_ok constructed in
  exists userId href sc,
    headers_get (req_headers request) "user-id" = Some userId
    /\ URL_href env_ok (url_or_default request) = Some href
    /\ screenshot_result env_ok = Some sc
    /\ body (Response_json
               [("sucess", JBool true);
                ("captureKey",
                 JArr ["captures/user-dXNlcl80Mg==/https://example.com/_1920x1080.jpg"])]
               200)
       = BodyJson [("sucess", JBool true);
                   ("captureKey", JArr [storage_key2 userId href])]
    /\ bucket (final r) !! storage_key2 userId href = Some sc
    /\ forall k, k <> storage_key2 userId href ->
                 bucket (final r) !! k = bucket constructed !! k.
Proof.
  apply (Browser2_success_carries_the_storage_key
           (capture_request "https://example.com/" "user_42") env_ok
           constructed
           (Response_json
              [("sucess", JBool true);
               ("captureKey",
                JArr ["captures/user-dXNlcl80Mg==/https://example.com/_1920x1080.jpg"])]
              200)).
  - vm_compute. reflexivity.
  - reflexivity.
Defined.

(** X19. In the second class the key has no random part: a second
    successful capture of the same request answers the same key, and its
    image replaces the first one in the bucket. *)
Theorem Browser2_recapture_replaces_the_object
    (request : Request) (env1 env2 : Env) (s : State)
    (resp1 resp2 : Response) :
  let r1 := Browser2.fetch request env1 s in
  let r2 := Browser2.fetch request env2 (final r1) in
  URL_href env1 (url_or_default request)
  = URL_href env2 (url_or_default request) ->
  outcome r1 = Returns resp1 -> status resp1 = 200 ->
  outcome r2 = Returns resp2 -> status resp2 = 200 ->
  resp2 = resp1
  /\ exists key sc2,
       screenshot_result env2 = Some sc2
       /\ bucket (final r2) = <[key := sc2]> (bucket s).
Proof.
  cbv zeta. intros Hsame Hout1 Hst1 Hout2 Hst2.
  destruct (Browser2_success request env1 s resp1 Hout1 Hst1)
    as (u1 & h1 & sc1 & Hid1 & Hurl1 & Hsc1 & -> & Hb1).
  destruct (Browser2_success request env2 _ resp2 Hout2 Hst2)
    as (u2 & h2 & sc2 & Hid2 & Hurl2 & Hsc2 & -> & Hb2).
  assert (u2 = u1) by congruence. assert (h2 = h1) by congruence. subst.
  split; [reflexivity |].
  exists (storage_key2 u1 h1), sc2. split; [assumption |].
  rewrite Hb2, Hb1. apply insert_insert_eq.
Qed.

Lemma Browser2_recapture_replaces_the_object_witness :
  let request := capture_request "https://example.com/" "user_42" in
  let r1 := Browser2.fetch request env_ok constructed in
  let r2 := Browser2.fetch request env_ok (final r1) in
  Response_json
    [("sucess", JBool true);
     ("captureKey",
      JArr ["captures/user-dXNlcl80Mg==/https://example.com/_1920x1080.jpg"])]
    200
  = Response_json
      [("sucess", JBool true);
       ("captureKey",
        JArr ["captures/user-dXNlcl80Mg==/https://example.com/_1920x1080.jpg"])]
      200
  /\ exists key sc2,
       screenshot_result env_ok = Some sc2
       /\ bucket (final r2) = <[key := sc2]> (bucket constructed).
Proof.
  apply (Browser2_recapture_replaces_the_object
           (capture_request "https://example.com/" "user_42") env_ok env_ok
           constructed).
  - reflexivity.
  - vm_compute. reflexivity.
  - reflexivity.
  - vm_compute. reflexivity.
  - reflexivity.
Defined.

(** X20. The second class rejects a request for one reason only: its 400
    is the plain text [User ID not found], given exactly when the
    [user-id] header is absent or empty, without any platform call.  A
    request without [url] header is not rejected. *)
Theorem Browser2_rejects_only_a_missing_user_id
    (request : Request) (env : Env) (s : State) (resp : Response) :
  let r := Browser2.fetch request env s in
  outcome r = Returns resp ->
  (status resp = 400 <->
   falsy (headers_get (req_headers request) "user-id") = true)
  /\ (status resp = 400 ->
      resp = Response_text "User ID not found" 400
      /\ final r = s /\ events r = []).
Proof.
  cbv zeta. unfold falsy. unfold_handlers. name_headers request.
  clear fullPage.
  repeat (simpl_state; split_match); simpl_state;
    intros Hout; try discriminate Hout; injection Hout as <-;
    cbn [status Response_text Response_json negb].
  all: split; [split; intros H; first [reflexivity | discriminate H]
              | intros H; first [discriminate H | repeat split]].
Qed.

Lemma Browser2_rejects_only_a_missing_user_id_witness :
  let request :=
    {| req_url := "clipster://capture"; req_method := "GET";
       req_headers := []; req_form := None |} in
  let r := Browser2.fetch request env_ok constructed in
  (status (Response_text "User ID not found" 400) = 400 <->
   falsy (headers_get (req_headers request) "user-id") = true)
  /\ (status (Response_text "User ID not found" 400) = 400 ->
      Response_text "User ID not found" 400
      = Response_text "User ID not found" 400
      /\ final r = constructed /\ events r = []).
Proof.
  apply (Browser2_rejects_only_a_missing_user_id
           {| req_url := "clipster://capture"; req_method := "GET";
              req_headers := []; req_form := None |}
           env_ok constructed (Response_text "User ID not found" 400)).
  vm_compute. reflexivity.
Defined.

(** ** Captures from end to end *)

(** Every write of [fetch] goes to the storage key made of its [user-id]
    header and the capture id of this call. *)
Lemma fetch_put_key
    (request : Request) (env : Env) (s : State) (k : string) (ok : bool) :
  In (EvPut k ok) (events (Browser.fetch request env s)) ->
  k = storage_key (str (headers_get (req_headers request) "user-id"))
        (generateId None (random_pick env)).
Proof.
  unfold_handlers. name_headers request.
  repeat (simpl_state; split_match); simpl_state; simpl In;
    intros Hin;
    repeat match type of Hin with
           | _ \/ _ => destruct Hin as [Hin | Hin]; try discriminate Hin
           end;
    try contradiction.
  all: injection Hin as <- <-; apply storage_key_eq.
Qed.

(** X21. Through the router an image is only ever written into the folder
    of the user Clerk authenticated: the key of every write is made of
    that user id, whatever the request says. *)
Theorem router_stores_in_the_authenticated_folder
    (request : Request) (env : Env) (s : State) (k : string) (ok : bool) :
  In (EvPut k ok) (events (worker_fetch request env s)) ->
  exists userId,
    auth_userId env = Some userId /\ userId <> ""
    /\ k = storage_key userId (generateId None (random_pick env)).
Proof.
  intros Hin.
  destruct (worker_fetch_cases request env s)
    as [(_ & _ & Hev & _)
       | (_ & [(_ & Hr)
              | (_ & [(_ & Hr)
                     | [(_ & _ & Hr)
                       | (_ & [(_ & _ & Hev & _)
                              | [(form & _ & _ & Hr)
                                | (form & url & userId & _ & _ & _ & Hauth
                                   & Hid & Hfwd)]])]])])].
  all: try (rewrite Hr in Hin; now contradiction Hin).
  all: try (rewrite Hev in Hin; now contradiction Hin).
  rewrite Hfwd in Hin. apply fetch_put_key in Hin.
  exists userId. repeat split; assumption.
Qed.

Lemma router_stores_in_the_authenticated_folder_witness :
  exists userId,
    auth_userId env_ok = Some userId /\ userId <> ""
    /\ "captures/user-dXNlcl80Mg==/O18elsz.jpg"
       = storage_key userId (generateId None (random_pick env_ok)).
Proof.
  apply (router_stores_in_the_authenticated_folder
           (post_request "https://example.com/") env_ok constructed
           "captures/user-dXNlcl80Mg==/O18elsz.jpg" true).
  vm_compute. tauto.
Defined.

(** X22. The first capture of a session, on a platform that grants every
    call: [fetch] launches the browser, opens a page, sets the viewport to
    1920 by 1080, navigates to the [href] of the URL, takes the
    screenshot, stores it, closes the page and arms the alarm, in this
    order; it leaves the browser connected with no page open, the counter
    at zero, one alarm due in ten seconds, and answers the capture id. *)
Theorem first_capture_on_a_granting_platform
    (request : Request) (env : Env) (s : State)
    (url href user : string) (id : nat) (sc : Bytes) :
  headers_get (req_headers request) "url" = Some url -> url <> "" ->
  URL_href env url = Some href ->
  headers_get (req_headers request) "user-id" = Some user ->
  user <> "" ->
  browser s = None -> alarms s = [] ->
  launch_result env = Some id ->
  newPage_ok env = true -> setViewport_ok env = true -> goto_ok env = true ->
  screenshot_result env = Some sc -> put_ok env = true ->
  page_close_ok env = true ->
  let captureKey := generateId None (random_pick env) in
  let fullPage := Boolean (headers_get (req_headers request) "full-page") in
  Browser.fetch request env s
  = {| outcome :=
         Returns (Response_json
                    [("success", JBool true); ("key", JStr captureKey)] 200);
       final :=
         {| browser := Some {| browser_id := id; connected := true;
                               open_pages := []; pages_created := 1 |};
            keptAliveInSeconds := 0;
            alarms := [Date_now env + 10000];
            bucket := <[storage_key user captureKey := sc]> (bucket s) |};
       events :=
         [EvLog "Browser DO: Starting new instance";
          EvLaunch (Some id);
          EvNewPage id (Some 0%nat);
          EvSetViewport 0 1920 1080 true;
          EvGoto 0 href true;
          EvScreenshot 0 (captureKey +:+ ".jpg") fullPage true;
          EvPut (storage_key user captureKey) true;
          EvPageClose 0 true;
          EvGetAlarm None;
          EvLog "Browser DO: setting alarm";
          EvSetAlarm (Date_now env + 10000)] |}.
Proof.
  cbv zeta. unfold_handlers. name_headers request.
  intros -> Hurl Hparse -> Hid Hb Ha Hlaunch Hnew Hview Hgoto Hshot Hput
         Hclose.
  destruct url as [|c url]; [now contradiction Hurl |].
  destruct user as [|c' user]; [now contradiction Hid |].
  destruct s as [sb sk sa sm]. simpl in Hb, Ha. subst sb sa.
  cbv beta iota delta [Boolean str]. rewrite Hparse.
  simpl_state. rewrite Hlaunch. simpl_state.
  rewrite Hnew. simpl_state. rewrite Hview. simpl_state.
  rewrite Hgoto. simpl_state. rewrite Hshot. simpl_state.
  rewrite Hput. simpl_state. rewrite Hclose. simpl_state.
  rewrite storage_key_eq. reflexivity.
Qed.

Lemma first_capture_on_a_granting_platform_witness :
  Browser.fetch (capture_request "https://example.com/" "user_42") env_ok
    constructed
  = {| outcome :=
         Returns (Response_json
                    [("success", JBool true);
                     ("key", JStr (generateId None (random_pick env_ok)))]
                    200);
       final :=
         {| browser := Some {| browser_id := 1; connected := true;
                               open_pages := []; pages_created := 1 |};
            keptAliveInSeconds := 0;
            alarms := [Date_now env_ok + 10000];
            bucket := <[storage_key "user_42"
                          (generateId None (random_pick env_ok))
                        := sample_image]> (bucket constructed) |};
       events :=
         [EvLog "Browser DO: Starting new instance";
          EvLaunch (Some 1%nat);
          EvNewPage 1 (Some 0%nat);
          EvSetViewport 0 1920 1080 true;
          EvGoto 0 "https://example.com/" true;
          EvScreenshot 0 (generateId None (random_pick env_ok) +:+ ".jpg")
            (Boolean
               (headers_get
                  (req_headers
                     (capture_request "https://example.com/" "user_42"))
                  "full-page"))
            true;
          EvPut (storage_key "user_42"
                   (generateId None (random_pick env_ok))) true;
          EvPageClose 0 true;
          EvGetAlarm None;
          EvLog "Browser DO: setting alarm";
          EvSetAlarm (Date_now env_ok + 10000)] |}.
Proof.
  apply (first_capture_on_a_granting_platform
           (capture_request "https://example.com/" "user_42") env_ok
           constructed "https://example.com/" "https://example.com/"
           "user_42" 1%nat sample_image);
    first [reflexivity | discriminate].
Defined.

Lemma Browser2_responses_witness :
  let r := Browser2.fetch (capture_request_with "https://example.com/"
                             "user_42" "true")
             env_goto_fails constructed in
  (forall page path fp ok,
     In (EvScreenshot page path fp ok) (events r) -> fp = false)
  /\ ((status (Response_text "Error during page operations" 500) = 200
       /\ exists keys,
            body (Response_text "Error during page operations" 500)
            = BodyJson [("sucess", JBool true); ("captureKey", JArr keys)])
      \/ ((status (Response_text "Error during page operations" 500) = 400
           \/ status (Response_text "Error during page operations" 500) = 500)
          /\ exists text,
               body (Response_text "Error during page operations" 500)
               = BodyText text)).
Proof.
  pose proof (Browser2_responses
                (capture_request_with "https://example.com/" "user_42" "true")
                env_goto_fails constructed
                (Response_text "Error during page operations" 500))
    as [Hfp Hresp].
  split; [exact Hfp |]. apply Hresp. vm_compute. reflexivity.
Defined.
